(** * shadow-data: the activity extraction and risk scoring engine of [main.py]

    A shallow embedding of the helpers ([clean_text], [clean_top5_item],
    [top5_from_list]), of the four analyzers ([analyze_generic_file],
    [analyze_search_file], [analyze_youtube_file], [analyze_discover_file])
    and of [calculate_risk], followed by the properties of the specification.

    Conventions of the model.
    - A Python [str] is a list of characters, [str := list ascii]; a character
      is a code point below 256.  On that range the character classes below
      ([is_space], [is_word], [lower_char], line boundaries) are the ones of
      Python 3: [str.isspace], the [\s], [\w], [\d] of [re] on [str] patterns,
      [str.lower] and [str.splitlines].
    - [re] is embedded as a backtracking matcher over a small syntax of
      patterns ([regex]); each pattern of [main.py] is written out as a term of
      that syntax next to its source text.
    - BeautifulSoup is outside the repository: a document is the list of [div]
      elements that [soup.find_all('div')] returns, each with its text nodes,
      its first [a] element and its first [span] element.
    - [datetime.strptime] is a parameter ([strptime]); a [datetime] is a number
      of microseconds, and the current time is an argument of [calculate_risk].
    - The floats of [calculate_risk] are real numbers; [math.exp] raises
      [OverflowError] when its result exceeds the largest float. *)

From Stdlib Require Import List Ascii Strings.Byte Bool Arith NArith ZArith Lia.
From Stdlib Require Import Reals Lra.
From Stdlib Require Import Sorted Permutation.
Import ListNotations.

Set Warnings "-via-type-mismatch,-via-type-remapping,-abstract-large-number".

(* ================================================================== *)
(** * Python strings *)
(* ================================================================== *)

Definition str := list ascii.

(** String literals of type [str]: a literal stands for the list of its
    characters, read byte by byte. *)
Inductive str_literal := lit_nil | lit_cons (c : ascii) (l : str_literal).

Fixpoint literal_of_bytes (l : list byte) : str_literal :=
  match l with
  | [] => lit_nil
  | b :: l' => lit_cons (ascii_of_byte b) (literal_of_bytes l')
  end.

Fixpoint bytes_of_literal (l : str_literal) : list byte :=
  match l with
  | lit_nil => []
  | lit_cons c l' => byte_of_ascii c :: bytes_of_literal l'
  end.

Declare Scope str_scope.
Delimit Scope str_scope with str.
Bind Scope str_scope with str.
String Notation str literal_of_bytes bytes_of_literal
  (via str_literal mapping [[nil] => lit_nil, [cons] => lit_cons]) : str_scope.
Open Scope str_scope.

Module PyStr.

(** Code point of a character. *)
Definition code (c : ascii) : N := N_of_ascii c.

Definition in_range (lo hi : N) (c : ascii) : bool :=
  ((lo <=? code c) && (code c <=? hi))%N.

(** [str.isspace], and [\s] of [re]: code points 9-13, 28-32, 133, 160. *)
Definition is_space (c : ascii) : bool :=
  in_range 9 13 c || in_range 28 32 c || (code c =? 133)%N || (code c =? 160)%N.

(** [[0-9]]; also [\d] on the modelled range. *)
Definition is_digit (c : ascii) : bool := in_range 48 57 c.

Definition is_upper_ascii (c : ascii) : bool := in_range 65 90 c.
Definition is_lower_ascii (c : ascii) : bool := in_range 97 122 c.

(** [[A-Za-z0-9]]. *)
Definition is_alnum_ascii (c : ascii) : bool :=
  is_upper_ascii c || is_lower_ascii c || is_digit c.

(** [\w] of [re] (alphanumeric per [str.isalnum], or underscore). *)
Definition is_word (c : ascii) : bool :=
  is_alnum_ascii c || (code c =? 95)%N
  || (code c =? 170)%N || (code c =? 178)%N || (code c =? 179)%N
  || (code c =? 181)%N || (code c =? 185)%N || (code c =? 186)%N
  || in_range 188 190 c || in_range 192 214 c || in_range 216 246 c
  || in_range 248 255 c.

(** [str.lower] on one character: A-Z, and 192-222 except 215. *)
Definition lower_char (c : ascii) : ascii :=
  if is_upper_ascii c || (in_range 192 222 c && negb (code c =? 215)%N)
  then ascii_of_N (code c + 32)
  else c.

Definition lower (s : str) : str := map lower_char s.

(** Line boundaries of [str.splitlines]. *)
Definition is_linebreak (c : ascii) : bool :=
  in_range 10 13 c || in_range 28 30 c || (code c =? 133)%N.

Definition newline : ascii := ascii_of_N 10.
Definition carriage_return : ascii := ascii_of_N 13.

Fixpoint lstrip (s : str) : str :=
  match s with
  | c :: s' => if is_space c then lstrip s' else s
  | [] => []
  end.

Definition rstrip (s : str) : str := rev (lstrip (rev s)).

(** [s.strip()]. *)
Definition strip (s : str) : str := rstrip (lstrip s).

(** Truth value of a string: [if s]. *)
Definition nonempty (s : str) : bool :=
  match s with [] => false | _ :: _ => true end.

Definition str_eqb (a b : str) : bool :=
  if list_eq_dec ascii_dec a b then true else false.

Fixpoint startswith (s p : str) {struct p} : bool :=
  match p, s with
  | [], _ => true
  | c :: p', d :: s' => Ascii.eqb c d && startswith s' p'
  | _ :: _, [] => false
  end.

(** [s.endswith(p)]. *)
Definition endswith (s p : str) : bool := startswith (rev s) (rev p).

(** [needle in hay]. *)
Fixpoint contains (needle hay : str) : bool :=
  startswith hay needle
  || match hay with
     | [] => false
     | _ :: hay' => contains needle hay'
     end.

(** [s.split(sep, 1)[1]] when [sep in s]. *)
Fixpoint after_first (sep s : str) : option str :=
  if startswith s sep then Some (skipn (length sep) s)
  else match s with
       | [] => None
       | _ :: s' => after_first sep s'
       end.

(** [s.split()]: the words between runs of whitespace; [w] is the word being
    read, last character first. *)
Fixpoint split_from (w s : str) : list str :=
  match s with
  | [] => match w with [] => [] | _ => [rev w] end
  | c :: s' =>
      if is_space c
      then match w with
           | [] => split_from [] s'
           | _ => rev w :: split_from [] s'
           end
      else split_from (c :: w) s'
  end.

Definition split (s : str) : list str := split_from [] s.

(** [sep.join(l)]. *)
Fixpoint join (sep : str) (l : list str) : str :=
  match l with
  | [] => []
  | [x] => x
  | x :: l' => x ++ sep ++ join sep l'
  end.

(** [s.splitlines()]; [w] is the line being read, last character first. *)
Fixpoint splitlines_from (w s : str) : list str :=
  match s with
  | [] => match w with [] => [] | _ => [rev w] end
  | c :: s' =>
      if is_linebreak c
      then rev w ::
           match s' with
           | d :: s'' =>
               if Ascii.eqb c carriage_return && Ascii.eqb d newline
               then splitlines_from [] s''
               else splitlines_from [] s'
           | [] => splitlines_from [] s'
           end
      else splitlines_from (c :: w) s'
  end.

Definition splitlines (s : str) : list str := splitlines_from [] s.

End PyStr.
Import PyStr.

(* ================================================================== *)
(** * Regular expressions of [re] *)
(* ================================================================== *)

Module Re.

(** Patterns.  [Chr f] is a character class, [Star] the greedy [*],
    [Bol] is [^], [Eol] is [$], [WordB] is [\b]. *)
Inductive regex : Type :=
| Eps
| Chr (f : ascii -> bool)
| Seq (a b : regex)
| Alt (a b : regex)
| Star (a : regex)
| Bol
| Eol
| WordB.

Definition seqs (l : list regex) : regex := fold_right Seq Eps l.
(** [a+], [a?] (both greedy). *)
Definition plus (a : regex) : regex := Seq a (Star a).
Definition opt (a : regex) : regex := Alt a Eps.
Definition chr (c : ascii) : regex := Chr (Ascii.eqb c).
(** A literal, and a literal under [re.I]. *)
Definition lit (s : str) : regex := seqs (map chr s).
Definition chr_i (c : ascii) : regex :=
  Chr (fun x => Ascii.eqb (lower_char x) (lower_char c)).
Definition lit_i (s : str) : regex := seqs (map chr_i s).

(** A position in the subject: the character before it (none at the start)
    and the text from it on. *)
Definition pos := (option ascii * str)%type.

Definition word_before (p : pos) : bool :=
  match fst p with Some c => is_word c | None => false end.
Definition word_after (p : pos) : bool :=
  match snd p with c :: _ => is_word c | [] => false end.

(** Greedy iteration: every way of one more round that consumes something,
    then stopping here. *)
Fixpoint star_from (step : pos -> list pos) (fuel : nat) (p : pos) : list pos :=
  match fuel with
  | 0 => [p]
  | S n =>
      flat_map
        (fun q => if length (snd q) <? length (snd p) then star_from step n q else [])
        (step p)
      ++ [p]
  end.

(** The positions at which a match of [r] started at [p] can end, in the
    order in which the backtracking matcher of [re] tries them: the first one
    is the match [re] reports. *)
Fixpoint matches (r : regex) (p : pos) : list pos :=
  match r with
  | Eps => [p]
  | Chr f =>
      match snd p with
      | c :: s => if f c then [(Some c, s)] else []
      | [] => []
      end
  | Seq a b => flat_map (matches b) (matches a p)
  | Alt a b => matches a p ++ matches b p
  | Star a => star_from (matches a) (S (length (snd p))) p
  | Bol => match fst p with None => [p] | Some _ => [] end
  | Eol =>
      match snd p with
      | [] => [p]
      | [c] => if Ascii.eqb c newline then [p] else []
      | _ => []
      end
  | WordB => if xorb (word_before p) (word_after p) then [p] else []
  end.

(** Number of characters of the match at [p], if there is one. *)
Definition match_length (r : regex) (p : pos) : option nat :=
  match matches r p with
  | q :: _ => Some (length (snd p) - length (snd q))
  | [] => None
  end.

(** [re.sub] from a position on, left to right; [skip] characters of the
    match in progress are still to be dropped.  Every pattern of [main.py]
    consumes at least one character (see [nullable]), so the rule of [re] for
    empty matches never applies; an empty match is passed over. *)
Fixpoint sub_from (r : regex) (repl : str) (skip : nat) (prev : option ascii)
    (s : str) : str :=
  match s with
  | [] => []
  | c :: s' =>
      match skip with
      | S k => sub_from r repl k (Some c) s'
      | 0 =>
          match match_length r (prev, s) with
          | Some (S k) => repl ++ sub_from r repl k (Some c) s'
          | _ => c :: sub_from r repl 0 (Some c) s'
          end
      end
  end.

(** [re.sub(r, repl, s)]. *)
Definition sub (r : regex) (repl s : str) : str := sub_from r repl 0 None s.

Fixpoint search_from (r : regex) (prev : option ascii) (s : str) : bool :=
  match matches r (prev, s) with
  | _ :: _ => true
  | [] =>
      match s with
      | [] => false
      | c :: s' => search_from r (Some c) s'
      end
  end.

(** [re.search(r, s)] as a truth value. *)
Definition search (r : regex) (s : str) : bool := search_from r None s.

(** A pattern that can match the empty string. *)
Fixpoint nullable (r : regex) : bool :=
  match r with
  | Chr _ => false
  | Seq a b => nullable a && nullable b
  | Alt a b => nullable a || nullable b
  | Eps | Star _ | Bol | Eol | WordB => true
  end.

Definition any_space : regex := Chr is_space.
Definition non_space : regex := Chr (fun c => negb (is_space c)).
Definition digit : regex := Chr is_digit.

End Re.
Import Re.

(* ================================================================== *)
(** * Small helpers: [clean_text], [clean_top5_item], [top5_from_list] *)
(* ================================================================== *)

Module Helpers.

(** [<[^>]+>] *)
Definition html_tag_re : regex :=
  seqs [chr "<"; plus (Chr (fun c => negb (Ascii.eqb c ">"))); chr ">"].

(** [https?://\S+] *)
Definition url_re : regex :=
  seqs [lit "http"; opt (chr "s"); lit "://"; plus non_space].

(** [www\.\S+] *)
Definition www_re : regex := seqs [lit "www."; plus non_space].

(** [[^A-Za-z0-9\s]] *)
Definition special_re : regex :=
  Chr (fun c => negb (is_alnum_ascii c || is_space c)).

(** [\s+] *)
Definition spaces_re : regex := plus any_space.

Definition clean_text (s : str) : str :=
  if nonempty s then
    let s := sub html_tag_re "" s in
    let s := sub url_re "" s in
    let s := sub www_re "" s in
    let s := sub special_re " " s in
    let s := strip (sub spaces_re " " s) in
    lower s
  else "".

Definition junk_words : list str := ["here"; "click"; "login"; "home"; "ok"].

Definition clean_top5_item (s : str) : str :=
  let words :=
    filter (fun w => negb (existsb (str_eqb w) junk_words) && (2 <? length w))
           (split s) in
  strip (join " " words).

(** [collections.Counter]: labels in the order in which they were first
    seen, each with its number of occurrences. *)
Definition counter := list (str * nat).

Fixpoint counter_add (x : str) (c : counter) : counter :=
  match c with
  | [] => [(x, 1)]
  | (y, n) :: c' =>
      if str_eqb x y then (y, S n) :: c' else (y, n) :: counter_add x c'
  end.

Definition Counter (l : list str) : counter :=
  fold_left (fun c x => counter_add x c) l [].

(** [sorted(c.items(), key=count, reverse=True)]: stable, so labels of equal
    count keep the order of first occurrence. *)
Fixpoint insert_by_count (e : str * nat) (l : counter) : counter :=
  match l with
  | [] => [e]
  | e' :: l' =>
      if snd e' <=? snd e then e :: l else e' :: insert_by_count e l'
  end.

Definition sort_by_count (c : counter) : counter :=
  fold_right insert_by_count [] c.

(** [c.most_common(n)], which is [heapq.nlargest(n, c.items(), key=count)]. *)
Definition most_common (n : nat) (c : counter) : counter :=
  firstn n (sort_by_count c).

Definition no_data : counter := [("No data found", 0)].

Definition top5_from_list (items : list str) : counter :=
  let cleaned_items :=
    map (fun x => clean_top5_item (clean_text x))
        (filter (fun x => nonempty (clean_text x)) items) in
  let cleaned_items := filter nonempty cleaned_items in
  match cleaned_items with
  | [] => no_data
  | _ => most_common 5 (Counter cleaned_items)
  end.

End Helpers.
Import Helpers.

(* ================================================================== *)
(** * Documents and dictionaries *)
(* ================================================================== *)

Module Soup.

(** The first [a] element of a block: its text nodes and its [href]
    attribute, if it has one. *)
Record a_element : Type := {
  a_strings : list str;
  a_href : option str
}.

(** One element of [soup.find_all('div')]: the text nodes below it in
    document order, [div.find('a')] and the text nodes of [div.find('span')]. *)
Record div_element : Type := {
  div_strings : list str;
  div_a : option a_element;
  div_span : option (list str)
}.

Definition document := list div_element.

(** [tag.get_text(separator=sep, strip=True)] over the text nodes of [tag]:
    each one stripped, the empty ones left out. *)
Definition get_text (sep : str) (strings : list str) : str :=
  join sep (filter nonempty (map strip strings)).

(** [a_tag.get('href', '')]. *)
Definition href_of (a : a_element) : str :=
  match a_href a with Some h => h | None => "" end.

End Soup.
Import Soup.

Module Dict.

(** A [dict] from category names to counts, in insertion order. *)
Definition dict := list (str * nat).

Fixpoint dict_get (d : dict) (k : str) : option nat :=
  match d with
  | [] => None
  | (k', v) :: d' => if str_eqb k k' then Some v else dict_get d' k
  end.

(** [d[k]] read as a count, zero for a key that is not there. *)
Definition count_of (d : dict) (k : str) : nat :=
  match dict_get d k with Some v => v | None => 0 end.

(** [d[k] = v]. *)
Fixpoint dict_set (k : str) (v : nat) (d : dict) : dict :=
  match d with
  | [] => [(k, v)]
  | (k', v') :: d' =>
      if str_eqb k k' then (k', v) :: d' else (k', v') :: dict_set k v d'
  end.

(** [d[k] += 1]; every key the analyzers increment is in the dictionary
    from the start. *)
Definition dict_incr (k : str) (d : dict) : dict :=
  match dict_get d k with
  | Some v => dict_set k (v + 1) d
  | None => d
  end.

Definition keys (d : dict) : list str := map fst d.
Definition values (d : dict) : list nat := map snd d.

(** [sum(l)]. *)
Definition sum (l : list nat) : nat := fold_left Nat.add l 0.

End Dict.
Import Dict.

(* ================================================================== *)
(** * The four analyzers *)
(* ================================================================== *)

(** A [datetime]: microseconds since the first instant of the calendar. *)
Definition datetime := Z.

Definition line_feed : str := [newline].

(** [^(for|on|about)\s+] under [re.I] *)
Definition connector_re : regex :=
  seqs [Bol; Alt (lit_i "for") (Alt (lit_i "on") (lit_i "about")); plus any_space].

(** [\bat \d{1,2}:\d{2}\b.*$] *)
Definition time_re : regex :=
  seqs [WordB; lit "at "; digit; opt digit; chr ":"; digit; digit; WordB;
        Star (Chr (fun c => negb (Ascii.eqb c newline))); Eol].

(** [\s*-\s*viewed$] under [re.I] *)
Definition viewed_dash_re : regex :=
  seqs [Star any_space; chr "-"; Star any_space; lit_i "viewed"; Eol].

(** [viewed$] under [re.I] *)
Definition viewed_re : regex := seqs [lit_i "viewed"; Eol].

(** [\bcard(s)?\b|\bin your feed\b] under [re.I] *)
Definition card_re : regex :=
  Alt (seqs [WordB; lit_i "card"; opt (chr_i "s"); WordB])
      (seqs [WordB; lit_i "in your feed"; WordB]).

(** [text.split(phrase, 1)[1]], taken when [phrase in text]. *)
Definition after_phrase (phrase text : str) : str :=
  match after_first phrase text with Some t => t | None => "" end.

(** [text.split(" • ")[0]]: the separator holds the bullet U+2022, which is
    outside the modelled range of characters; no modelled text contains it,
    and the first piece of the split is the text itself. *)
Definition before_bullet (text : str) : str := text.

Definition categories_of {A B : Type} (r : dict * A * B) : dict := fst (fst r).
Definition top5_of {A B : Type} (r : A * counter * B) : counter := snd (fst r).
Definition times_of {A B : Type} (r : A * B * list datetime) : list datetime := snd r.

Definition terms_of (st : dict * list str * list datetime) : list str := snd (fst st).

(** The text of a block as the generic, search and YouTube analyzers read it. *)
Definition block_text (div : div_element) : str := get_text " " (div_strings div).

Section Analyzers.

(** [datetime.strptime(text, format)]; [None] when it raises. *)
Variable strptime : str -> str -> option datetime.

Definition parse_datetime (text : str) : option datetime :=
  strptime text "%B %d, %Y at %H:%M".

(** The timestamp extraction that ends the loop body of every analyzer. *)
Definition timestamp_of (div : div_element) : list datetime :=
  match div_span div with
  | Some span =>
      match parse_datetime (get_text "" span) with
      | Some dt => [dt]
      | None => []
      end
  | None => []
  end.

(** ** Generic analyzer *)

Definition generic_categories : dict :=
  [("Search", 0); ("YouTube", 0); ("Maps", 0); ("Shopping", 0);
   ("Discover", 0); ("Other", 0)].

Definition generic_div (st : dict * list str * list datetime) (div : div_element)
  : dict * list str * list datetime :=
  let '(categories, items_for_top5, activity_times) := st in
  let text := get_text " " (div_strings div) in
  let low := lower text in
  let categories :=
    if contains "searched" low || contains "search" low then
      dict_incr "Search" categories
    else if contains "youtube" low || contains "watched" low then
      dict_incr "YouTube" categories
    else if contains "maps" low || contains "location" low || contains "place" low then
      dict_incr "Maps" categories
    else if contains "shopping" low || contains "product" low then
      dict_incr "Shopping" categories
    else if contains "discover" low then
      dict_incr "Discover" categories
    else
      dict_incr "Other" categories in
  let items_for_top5 :=
    match div_a div with
    | Some a_tag => items_for_top5 ++ [get_text "" (a_strings a_tag)]
    | None =>
        let chunk := clean_text (before_bullet text) in
        if nonempty chunk then items_for_top5 ++ [chunk] else items_for_top5
    end in
  (categories, items_for_top5, activity_times ++ timestamp_of div).

Definition generic_loop (doc : document) : dict * list str * list datetime :=
  fold_left generic_div doc (generic_categories, [], []).

Definition analyze_generic_file (doc : document) : dict * counter * list datetime :=
  let '(categories, items_for_top5, activity_times) := generic_loop doc in
  (categories, top5_from_list items_for_top5, activity_times).

(** ** Search analyzer *)

Definition search_categories : dict := [("Search", 0); ("Other", 0)].

Definition search_phrases : list str :=
  ["Searched for"; "You searched for"; "Searched on Google for"].

(** The term taken after a phrase that was found in the text. *)
Definition search_term (phrase text : str) : str :=
  let term := after_phrase phrase text in
  let term := clean_text term in
  let term := sub connector_re "" term in
  sub time_re "" term.

(** The loop over the phrases, left at the first phrase found; the last
    component is [found]. *)
Fixpoint search_scan (phrases : list str) (text : str) (categories : dict)
    (search_terms : list str) : dict * list str * bool :=
  match phrases with
  | [] => (categories, search_terms, false)
  | phrase :: phrases' =>
      if contains phrase text then
        let categories := dict_incr "Search" categories in
        let term := search_term phrase text in
        let search_terms :=
          if nonempty term then search_terms ++ [term] else search_terms in
        (categories, search_terms, true)
      else search_scan phrases' text categories search_terms
  end.

Definition search_div (st : dict * list str * list datetime) (div : div_element)
  : dict * list str * list datetime :=
  let '(categories, search_terms, activity_times) := st in
  let text := get_text " " (div_strings div) in
  let '(categories, search_terms, found) :=
    search_scan search_phrases text categories search_terms in
  let categories :=
    if negb found then dict_incr "Other" categories else categories in
  (categories, search_terms, activity_times ++ timestamp_of div).

Definition search_loop (doc : document) : dict * list str * list datetime :=
  fold_left search_div doc (search_categories, [], []).

Definition analyze_search_file (doc : document) : dict * counter * list datetime :=
  let '(categories, search_terms, activity_times) := search_loop doc in
  (categories, top5_from_list search_terms, activity_times).

(** ** YouTube analyzer *)

Definition youtube_categories : dict :=
  [("YouTube", 0); ("Search", 0); ("Maps", 0); ("Shopping", 0);
   ("Discover", 0); ("Other", 0)].

Definition youtube_phrases : list str :=
  ["Searched for"; "Search for"; "Searched on YouTube for"].

Definition youtube_query (phrase text : str) : str :=
  let q := clean_text (after_phrase phrase text) in
  sub connector_re "" q.

(** The loop over the phrases, which runs to its end. *)
Definition youtube_scan (text : str) (search_queries : list str) : list str :=
  fold_left
    (fun search_queries phrase =>
       if contains phrase text then
         let q := youtube_query phrase text in
         if nonempty q then search_queries ++ [q] else search_queries
       else search_queries)
    youtube_phrases search_queries.

Definition removed_video : str := "watched a video that has been removed".

Definition youtube_watch (div : div_element) (video_titles : list str) : list str :=
  match div_a div with
  | Some a_tag =>
      let href := href_of a_tag in
      if contains "youtube.com" href || contains "youtu.be" href then
        let title := clean_text (get_text "" (a_strings a_tag)) in
        if nonempty title && negb (startswith (lower title) removed_video)
        then video_titles ++ [title]
        else video_titles
      else video_titles
  | None => video_titles
  end.

(** The state of the loop: [video_titles], [search_queries], [activity_times]. *)
Definition youtube_div (st : list str * list str * list datetime) (div : div_element)
  : list str * list str * list datetime :=
  let '(video_titles, search_queries, activity_times) := st in
  let text := get_text " " (div_strings div) in
  let search_queries := youtube_scan text search_queries in
  let video_titles := youtube_watch div video_titles in
  (video_titles, search_queries, activity_times ++ timestamp_of div).

Definition youtube_loop (doc : document) : list str * list str * list datetime :=
  fold_left youtube_div doc ([], [], []).

Definition analyze_youtube_file (doc : document) : dict * counter * list datetime :=
  let '(video_titles, search_queries, activity_times) := youtube_loop doc in
  let combined := search_queries ++ video_titles in
  let categories := dict_set "YouTube" (length video_titles) youtube_categories in
  let categories := dict_set "Search" (length search_queries) categories in
  (categories, top5_from_list combined, activity_times).

(** ** Discover analyzer *)

Definition discover_categories : dict := [("Discover", 0)].

(** The loop that looks for the line starting with "details": the index
    after it. *)
Fixpoint details_index (i : nat) (lines : list str) : option nat :=
  match lines with
  | [] => None
  | ln :: lines' =>
      if startswith (lower ln) "details" then Some (i + 1)
      else details_index (S i) lines'
  end.

(** The loop over [lines[start_index:]]. *)
Fixpoint discover_lines (lines : list str) (items : list str) : list str :=
  match lines with
  | [] => items
  | ln :: lines' =>
      if startswith (lower ln) "why is this here" then items
      else
        let clean := strip (sub viewed_dash_re "" ln) in
        let clean := strip (sub viewed_re "" clean) in
        if search card_re clean then discover_lines lines' items
        else
          let clean := clean_text clean in
          if nonempty clean then discover_lines lines' (items ++ [clean])
          else discover_lines lines' items
  end.

Definition discover_div (st : list str * list datetime) (div : div_element)
  : list str * list datetime :=
  let '(items, activity_times) := st in
  let text := get_text line_feed (div_strings div) in
  if negb (nonempty text) then st
  else
    let lines := filter nonempty (map strip (splitlines text)) in
    match lines with
    | [] => st
    | line0 :: _ =>
        let first_line := lower line0 in
        let block_text_lower := lower (join line_feed lines) in
        let is_discover :=
          contains "discover" first_line
          || (contains "products:" block_text_lower
              && contains "discover" block_text_lower) in
        if negb is_discover then st
        else
          let start_index :=
            match details_index 0 lines with Some i => i | None => 1 end in
          let items := discover_lines (skipn start_index lines) items in
          (items, activity_times ++ timestamp_of div)
    end.

Definition discover_loop (doc : document) : list str * list datetime :=
  fold_left discover_div doc ([], []).

Definition analyze_discover_file (doc : document) : dict * counter * list datetime :=
  let '(items, activity_times) := discover_loop doc in
  let counter := Counter items in
  let top5_data :=
    match items with
    | [] => no_data
    | _ => most_common 5 counter
    end in
  let categories :=
    dict_set "Discover" (sum (values counter)) discover_categories in
  (categories, top5_data, activity_times).

End Analyzers.

(* ================================================================== *)
(** * Risk and suggestions: [calculate_risk] *)
(* ================================================================== *)

Module Risk.

Local Open Scope R_scope.

Inductive exn : Type := OverflowError.

(** What a computation ends with: a value, or a raised exception. *)
Inductive result (A : Type) : Type :=
| Ok (a : A)
| Raise (e : exn).
Arguments Ok {A} a.
Arguments Raise {A} e.

(** The largest float, [(2^53 - 1) * 2^971]. *)
Definition DBL_MAX : R := IZR ((2 ^ 53 - 1) * 2 ^ 971).

(** [math.exp(x)]: the exponential, or [OverflowError] ("math range error")
    when the result is too large for a float. *)
Definition math_exp (x : R) : result R :=
  if Rle_dec (exp x) DBL_MAX then Ok (exp x) else Raise OverflowError.

(** [math.log(n)] of a positive integer. *)
Definition math_log (n : Z) : R := ln (IZR n).

Definition weights : list (str * Z) :=
  [("Search", 1); ("YouTube", 2); ("Maps", 3); ("Shopping", 2);
   ("Discover", 1); ("Other", 1)]%Z.

(** [weights.get(cat, 1)]. *)
Fixpoint weights_get (w : list (str * Z)) (cat : str) : Z :=
  match w with
  | [] => 1
  | (k, v) :: w' => if str_eqb cat k then v else weights_get w' cat
  end.

(** [sum(weights.get(cat, 1) * math.log(1 + count) for cat, count in
    categories.items())]. *)
Definition base_risk (categories : dict) : R :=
  fold_left
    (fun acc (item : str * nat) =>
       let (cat, count) := item in
       acc + IZR (weights_get weights cat) * math_log (1 + Z.of_nat count))
    categories 0.

Definition microseconds_per_day : Z := 86400000000.

(** [(now - act_time).days]: whole days, rounded down. *)
Definition days_between (now act_time : datetime) : Z :=
  ((now - act_time) / microseconds_per_day)%Z.

(** The loop over [recent_activities]; an empty list leaves [recent_risk]
    at zero, as the guard [if recent_activities] does. *)
Fixpoint recent_loop (now : datetime) (recent_activities : list datetime)
    (recent_risk : R) : result R :=
  match recent_activities with
  | [] => Ok recent_risk
  | act_time :: rest =>
      let days_ago := days_between now act_time in
      match math_exp (IZR (- days_ago) / 7) with
      | Ok e => recent_loop now rest (recent_risk + e)
      | Raise x => Raise x
      end
  end.

Definition total_risk (now : datetime) (categories : dict)
    (recent_activities : list datetime) : result R :=
  match recent_loop now recent_activities 0 with
  | Ok recent_risk => Ok (base_risk categories + recent_risk)
  | Raise x => Raise x
  end.

(** [min(a, b)] and [max(a, b)] of Python: the second argument wins only
    when it is strictly better. *)
Definition py_min (a b : R) : R := if Rlt_dec b a then b else a.
Definition py_max (a b : R) : R := if Rlt_dec a b then b else a.

(** [int(x)]: truncation toward zero. *)
Definition py_int (x : R) : Z :=
  if Rle_dec 0 x then Int_part x else (- Int_part (- x))%Z.

Definition risk_percent (total_risk : R) : Z :=
  py_int (py_max 0 (py_min 100 ((total_risk / 15) * 100))).

(** The bundle [calculate_risk] returns: level, color, message, suggestions,
    percent.  (The arrow of the first "High" suggestion, U+25B6, stands in
    the literal as the bytes of its UTF-8 encoding.) *)
Definition assessment : Type := str * str * str * list str * Z.

Definition assess (total_risk : R) : assessment :=
  let risk_percent := risk_percent total_risk in
  if Rle_dec total_risk 3 then
    ("Low",
     "green",
     "Low tracking detected.",
     ["Keep privacy settings reviewed monthly.";
      "Use incognito for sensitive searches.";
      "Periodically clear browsing history."],
     risk_percent)
  else if Rle_dec total_risk 10 then
    ("Medium",
     "#ffcc00",
     "Moderate tracking detected.",
     ["Turn off Location History in Google settings.";
      "Review connected apps and revoke unused permissions.";
      "Use a privacy-focused browser (Brave/Firefox) for routine browsing."],
     risk_percent)
  else
    ("High",
     "red",
     "Heavy tracking detected recently.",
     ["Pause Web & App Activity (Google Account ▶ Data & privacy).";
      "Delete recent activity from My Activity.";
      "Consider a VPN for browsing and disable ad personalization."],
     risk_percent).

Definition calculate_risk (now : datetime) (categories : dict)
    (recent_activities : list datetime) : result assessment :=
  match total_risk now categories recent_activities with
  | Ok total => Ok (assess total)
  | Raise x => Raise x
  end.

Definition level_of (a : assessment) : str := fst (fst (fst (fst a))).
Definition color_of (a : assessment) : str := snd (fst (fst (fst a))).
Definition message_of (a : assessment) : str := snd (fst (fst a)).
Definition suggestions_of (a : assessment) : list str := snd (fst a).
Definition percent_of (a : assessment) : Z := snd a.

End Risk.

(* ================================================================== *)
(** * The route: the data [upload_file] computes *)
(* ================================================================== *)

Module Upload.

Import Risk.

(** The four analyzers the route chooses from. *)
Inductive analyzer : Type :=
| SearchFile
| YouTubeFile
| DiscoverFile
| GenericFile.

(** "Choose analyzer": the chain of tests on [filename_lower]. *)
Definition choose_analyzer (filename_lower : str) : analyzer :=
  if contains "search" filename_lower then SearchFile
  else if contains "youtube" filename_lower || contains "watch" filename_lower then
    YouTubeFile
  else if contains "discover" filename_lower || contains "myactivity" filename_lower then
    DiscoverFile
  else GenericFile.

(** [{k: v for k, v in categories.items() if v > 0}]. *)
Definition filtered_categories (categories : dict) : dict :=
  filter (fun item => 0 <? snd item) categories.

(** [[(label, count) for label, count in (top5_data or []) if label and
    count and label != "No data found"]]. *)
Definition top5_plot_data (top5_data : counter) : counter :=
  filter
    (fun item =>
       nonempty (fst item) && negb (snd item =? 0)
       && negb (str_eqb (fst item) "No data found"))
    top5_data.

(** [\W+] *)
Definition nonword_re : regex := plus (Chr (fun c => negb (is_word c))).

(** [re.sub(r'\W+', '_', filename_lower)]. *)
Definition safe_filename (filename_lower : str) : str :=
  sub nonword_re "_" filename_lower.

(** [f"top5_{safe_filename}.png"]. *)
Definition top5_chart_url (filename_lower : str) : str :=
  "top5_" ++ safe_filename filename_lower ++ ".png".

Section Route.

Variable strptime : str -> str -> option datetime.

Definition run_analyzer (a : analyzer) (doc : document) : dict * counter * list datetime :=
  match a with
  | SearchFile => analyze_search_file strptime doc
  | YouTubeFile => analyze_youtube_file strptime doc
  | DiscoverFile => analyze_discover_file strptime doc
  | GenericFile => analyze_generic_file strptime doc
  end.

(** What [upload_file] computes from the name of the file and its parsed
    document before it draws and renders: [categories], [display_top5] and
    the risk bundle; an exception of [calculate_risk] ends the request. *)
Definition upload_analysis (now : datetime) (filename : str) (doc : document)
  : result (dict * counter * assessment) :=
  let filename_lower := lower filename in
  let '(categories, top5_data, activity_times) :=
    run_analyzer (choose_analyzer filename_lower) doc in
  match calculate_risk now categories activity_times with
  | Ok risk => Ok (categories, top5_plot_data top5_data, risk)
  | Raise x => Raise x
  end.

End Route.

End Upload.
Import Upload.

(* ================================================================== *)
(** * The specification's own formulations *)
(* ================================================================== *)

Module Spec.

(** Section 4.4: "Apply normalize+filterNoiseWords to each raw item; drop
    empties." *)
Definition normalized_items (items : list str) : list str :=
  filter nonempty (map (fun x => clean_top5_item (clean_text x)) items).

(** Section 4.5: [clamp(x, lo, hi)]. *)
Definition clamp (x lo hi : R) : R := Rmax lo (Rmin hi x).

(** Section 4.5: percent is [clamp(total/15, 0, 1) * 100], truncated toward
    zero. *)
Definition percent (total : R) : Z :=
  Risk.py_int (clamp (total / 15) 0 1 * 100)%R.

(** Section 6: the literal text of each tier: color, headline, suggestions. *)
Definition low_text : str * str * list str :=
  ("green", "Low tracking detected.",
   ["Keep privacy settings reviewed monthly.";
    "Use incognito for sensitive searches.";
    "Periodically clear browsing history."]).

Definition medium_text : str * str * list str :=
  ("#ffcc00", "Moderate tracking detected.",
   ["Turn off Location History in Google settings.";
    "Review connected apps and revoke unused permissions.";
    "Use a privacy-focused browser (Brave/Firefox) for routine browsing."]).

Definition high_text : str * str * list str :=
  ("red", "Heavy tracking detected recently.",
   ["Pause Web & App Activity (Google Account ▶ Data & privacy).";
    "Delete recent activity from My Activity.";
    "Consider a VPN for browsing and disable ad personalization."]).

(** Section 4.4, last sentence: the path "normalize, count, top 5" that the
    ranked list of Discover goes through, with the sentinel for no items. *)
Definition top_five_without_noise_filter (items : list str) : counter :=
  match filter nonempty (map clean_text items) with
  | [] => no_data
  | cleaned => most_common 5 (Counter cleaned)
  end.

(** A record block of the extractors that count per block adds one to
    exactly one counter: the counter of [k] goes up by one and no other
    changes. *)
Definition adds_one_to (k : str) (before after : dict) : Prop :=
  forall k', count_of after k' = count_of before k' + (if str_eqb k' k then 1 else 0).

(** The assessment the specification gives for a level, its literal text
    and a percent. *)
Definition bundle (level : str) (text : str * str * list str) (percent : Z)
  : Risk.assessment :=
  (level, fst (fst text), snd (fst text), snd text, percent).

End Spec.

(* ================================================================== *)
(** * Sample blocks *)
(* ================================================================== *)

Module Samples.

(** [<div>text</div>]: a block with one text node, no link and no label. *)
Definition text_block (text : str) : div_element :=
  {| div_strings := [text]; div_a := None; div_span := None |}.

(** [<div>Searched for <a href="https://www.youtube.com/results?search_query=cats">cats</a></div>],
    the shape of a search entry of a YouTube history export. *)
Definition youtube_search_block : div_element :=
  {| div_strings := ["Searched for "; "cats"];
     div_a := Some {| a_strings := ["cats"];
                      a_href := Some "https://www.youtube.com/results?search_query=cats" |};
     div_span := None |}.

(** A Discover block whose only item is made of two-letter words. *)
Definition discover_block : div_element :=
  {| div_strings := ["Discover"; "Details"; "Go to it"];
     div_a := None; div_span := None |}.

(** A [strptime] that parses nothing; the sample blocks have no label, so
    no analyzer calls it on them. *)
Definition no_strptime : str -> str -> option datetime := fun _ _ => None.

End Samples.
Import Samples.

(* ================================================================== *)
(** * Vocabulary of the proofs *)
(* ================================================================== *)

Module Shapes.

(** Every character. *)
Definition all_ascii : list ascii := map ascii_of_nat (seq 0 256).

(** [blocked good r]: by its shape, [r] matches nowhere in a text made of
    [good] characters: it asks for a character that is not [good]. *)
Fixpoint blocked (good : ascii -> bool) (r : regex) : bool :=
  match r with
  | Chr f => forallb (fun c => negb (good c && f c)) all_ascii
  | Seq a b => blocked good a || blocked good b
  | Alt a b => blocked good a && blocked good b
  | Eps | Star _ | Bol | Eol | WordB => false
  end.

(** A run of whitespace replaced by one space, left to right; [in_run] says
    that the space of the current run is already written. *)
Fixpoint collapse_from (in_run : bool) (s : str) : str :=
  match s with
  | [] => []
  | c :: s' =>
      if is_space c then
        if in_run then collapse_from true s' else " "%char :: collapse_from true s'
      else c :: collapse_from false s'
  end.

(** The text after its longest prefix of characters of the class [f]. *)
Fixpoint drop_class (f : ascii -> bool) (s : str) : str :=
  match s with
  | c :: s' => if f c then drop_class f s' else s
  | [] => []
  end.

(** [[a-z0-9]]. *)
Definition is_lower_alnum (c : ascii) : bool := is_lower_ascii c || is_digit c.

Definition is_blank (c : ascii) : bool := Ascii.eqb c " ".

(** Words of [ok] characters with single blanks between them, and perhaps
    one blank after the last; [b] says that no blank may come next. *)
Fixpoint spaced (ok : ascii -> bool) (b : bool) (s : str) : bool :=
  match s with
  | [] => true
  | c :: s' =>
      if is_blank c then negb b && spaced ok true s'
      else ok c && spaced ok false s'
  end.

(** Words of [ok] characters with single blanks between them; [b] says that
    no blank may come next. *)
Fixpoint tidy_from (ok : ascii -> bool) (b : bool) (s : str) : bool :=
  match s with
  | [] => true
  | c :: s' =>
      if is_blank c then negb b && nonempty s' && tidy_from ok true s'
      else ok c && tidy_from ok false s'
  end.

(** The normal form of [clean_text]: lowercase alphanumerics in words, one
    blank between two words, no blank at either end. *)
Definition tidy (s : str) : bool := tidy_from is_lower_alnum true s.

(** The text after the first three substitutions of [clean_text]: markup
    and URLs removed. *)
Definition markup_removed (s : str) : str :=
  sub www_re "" (sub url_re "" (sub html_tag_re "" s)).

(** The characters of a tidy text. *)
Definition good (c : ascii) : bool := is_lower_alnum c || is_blank c.

(** What the Discover loop collects is normalized and not empty. *)
Definition collected (x : str) : Prop := tidy x = true /\ x <> [].

End Shapes.
Import Shapes.

Module MoreShapes.

(** [re.sub] of [f+] by the character [x]: one [x] for each run of the
    class [f]; [in_run] says that the [x] of the current run is written. *)
Fixpoint squeeze_from (f : ascii -> bool) (x : ascii) (in_run : bool) (s : str) : str :=
  match s with
  | [] => []
  | c :: s' =>
      if f c then
        if in_run then squeeze_from f x true s' else x :: squeeze_from f x true s'
      else c :: squeeze_from f x false s'
  end.

(** The distinct elements of a list in the order of their first occurrence. *)
Fixpoint first_seen (l : list str) : list str :=
  match l with
  | [] => []
  | x :: l' => x :: filter (fun y => negb (str_eqb y x)) (first_seen l')
  end.

(** Number of occurrences of a label in a list. *)
Definition occurrences (l : list str) (x : str) : nat :=
  count_occ (list_eq_dec ascii_dec) l x.

(** The entries of a ranking with the count [n]. *)
Definition with_count (n : nat) (c : counter) : counter :=
  filter (fun e => snd e =? n) c.

(** Counts in non-increasing order. *)
Definition descending (c : counter) : Prop :=
  Sorted (fun e e' => snd e' <= snd e) c.

(** A word of a cleaned top-5 item: longer than two characters, not a junk
    word, without whitespace. *)
Definition kept_word (w : str) : Prop :=
  2 < length w /\ ~ In w junk_words /\ Forall (fun c => is_space c = false) w.

(** A word as [split] returns it: not empty, without whitespace. *)
Definition word (w : str) : Prop := w <> [] /\ Forall (fun c => is_space c = false) w.

(** The words [clean_top5_item] keeps. *)
Definition kept_words (s : str) : list str :=
  filter (fun w => negb (existsb (str_eqb w) junk_words) && (2 <? length w)) (split s).

(** The text of a block holds one of the search phrases. *)
Definition has_search_phrase (div : div_element) : bool :=
  existsb (fun phrase => contains phrase (block_text div)) search_phrases.

(** The tests a block passes before the Discover loop reads its lines. *)
Definition discover_qualifies (div : div_element) : bool :=
  let text := get_text line_feed (div_strings div) in
  nonempty text
  && match filter nonempty (map strip (splitlines text)) with
     | [] => false
     | line0 :: lines' =>
         contains "discover" (lower line0)
         || (contains "products:" (lower (join line_feed (line0 :: lines')))
             && contains "discover" (lower (join line_feed (line0 :: lines'))))
     end.


End MoreShapes.
Import MoreShapes.

Module MoreSamples.

(** [<div>text<span>label</span></div>]: a block with a text node and a
    label holding the time of the activity. *)
Definition dated_block (text label : str) : div_element :=
  {| div_strings := [text; label]; div_a := None; div_span := Some [label] |}.

(** A [strptime] that reads every label as the instant [t]. *)
Definition constant_strptime (t : datetime) : str -> str -> option datetime :=
  fun _ _ => Some t.

End MoreSamples.
Import MoreSamples.

(* ================================================================== *)
(** * Lemmas on strings, dictionaries and counters *)
(* ================================================================== *)

Lemma str_eqb_eq (a b : str) : str_eqb a b = true <-> a = b.
Proof.
  unfold str_eqb. destruct (list_eq_dec ascii_dec a b); split; congruence.
Qed.

Lemma str_eqb_refl (a : str) : str_eqb a a = true.
Proof. now apply str_eqb_eq. Qed.

Lemma str_eqb_neq (a b : str) : str_eqb a b = false <-> a <> b.
Proof.
  unfold str_eqb. destruct (list_eq_dec ascii_dec a b); split; congruence.
Qed.

Lemma nonempty_true (s : str) : nonempty s = true <-> s <> [].
Proof. destruct s; simpl; split; congruence. Qed.

Lemma nonempty_false (s : str) : nonempty s = false <-> s = [].
Proof. destruct s; simpl; split; congruence. Qed.

Section CounterFacts.

Lemma counter_add_nonempty x c : counter_add x c <> [].
Proof. destruct c as [|[y n] c]; simpl; [|destruct (str_eqb x y)]; discriminate. Qed.

Lemma counter_add_positive x c :
  Forall (fun e => 1 <= snd e) c -> Forall (fun e => 1 <= snd e) (counter_add x c).
Proof.
  induction c as [|[y n] c IH]; simpl; intros H.
  - constructor; simpl; auto.
  - inversion H; subst. destruct (str_eqb x y); constructor; simpl in *; auto; lia.
Qed.

Lemma counter_add_sum x c :
  fold_right Nat.add 0 (values (counter_add x c)) = S (fold_right Nat.add 0 (values c)).
Proof.
  induction c as [|[y n] c IH]; simpl; [reflexivity|].
  destruct (str_eqb x y); simpl; [reflexivity|]. rewrite IH. lia.
Qed.

Lemma Counter_from_spec l : forall c,
  (l <> [] \/ c <> [] -> fold_left (fun c x => counter_add x c) l c <> [])
  /\ (Forall (fun e => 1 <= snd e) c ->
      Forall (fun e => 1 <= snd e) (fold_left (fun c x => counter_add x c) l c))
  /\ fold_right Nat.add 0 (values (fold_left (fun c x => counter_add x c) l c))
     = length l + fold_right Nat.add 0 (values c).
Proof.
  induction l as [|x l IH]; intros c; simpl.
  - repeat split; auto. intros [H|H]; congruence.
  - destruct (IH (counter_add x c)) as (H1 & H2 & H3). repeat split.
    + intros _. apply H1. right. apply counter_add_nonempty.
    + intros H. apply H2. now apply counter_add_positive.
    + rewrite H3, counter_add_sum. lia.
Qed.

Lemma Counter_nonempty l : l <> [] -> Counter l <> [].
Proof. intros H. apply (Counter_from_spec l []). now left. Qed.

Lemma Counter_positive l : Forall (fun e => 1 <= snd e) (Counter l).
Proof. apply (Counter_from_spec l []). constructor. Qed.

Lemma fold_left_add l : forall a, fold_left Nat.add l a = fold_right Nat.add 0 l + a.
Proof.
  induction l as [|x l IH]; intros a; simpl; [reflexivity|].
  rewrite IH. lia.
Qed.

Lemma sum_fold_right l : sum l = fold_right Nat.add 0 l.
Proof. unfold sum. rewrite fold_left_add. lia. Qed.

(** [sum(counter.values())] is the number of counted items. *)
Lemma Counter_sum l : sum (values (Counter l)) = length l.
Proof.
  rewrite sum_fold_right. unfold Counter.
  destruct (Counter_from_spec l []) as (_ & _ & H). rewrite H. simpl. lia.
Qed.

Lemma insert_by_count_length e l : length (insert_by_count e l) = S (length l).
Proof.
  induction l as [|e' l IH]; simpl; [reflexivity|].
  destruct (snd e' <=? snd e); simpl; auto.
Qed.

Lemma insert_by_count_Forall (P : str * nat -> Prop) e l :
  P e -> Forall P l -> Forall P (insert_by_count e l).
Proof.
  intros He. induction 1 as [|e' l He' Hl IH]; simpl.
  - auto.
  - destruct (snd e' <=? snd e); auto.
Qed.

Lemma sort_by_count_length c : length (sort_by_count c) = length c.
Proof.
  induction c as [|e c IH]; simpl; [reflexivity|].
  now rewrite insert_by_count_length, IH.
Qed.

Lemma sort_by_count_Forall (P : str * nat -> Prop) c :
  Forall P c -> Forall P (sort_by_count c).
Proof.
  induction 1; simpl; [constructor|]. now apply insert_by_count_Forall.
Qed.

Lemma most_common_length n c : length (most_common n c) <= n.
Proof. unfold most_common. apply firstn_le_length. Qed.

Lemma most_common_Forall (P : str * nat -> Prop) n c :
  Forall P c -> Forall P (most_common n c).
Proof.
  intros H. unfold most_common. apply sort_by_count_Forall in H.
  revert n. induction H; intros [|n]; simpl; auto.
Qed.

Lemma most_common_nonempty n c : c <> [] -> most_common (S n) c <> [].
Proof.
  intros H. unfold most_common.
  destruct (sort_by_count c) eqn:E; simpl; [|discriminate].
  apply (f_equal (@length _)) in E. rewrite sort_by_count_length in E.
  destruct c; simpl in *; congruence.
Qed.

(** The ranking of a non-empty list of labels is never the sentinel: its
    counts are positive. *)
Lemma most_common_not_no_data n l : l <> [] -> most_common (S n) (Counter l) <> no_data.
Proof.
  intros H E.
  pose proof (most_common_Forall (fun e => 1 <= snd e) (S n) _ (Counter_positive l)) as F.
  rewrite E in F. inversion F; subst. simpl in *. lia.
Qed.

End CounterFacts.

Lemma clean_top5_item_empty : clean_top5_item [] = [].
Proof. reflexivity. Qed.

(** The two-stage filter of [top5_from_list] is the specification's
    "normalize, filter noise words, drop empties". *)
Lemma cleaned_items_normalized items :
  filter nonempty
    (map (fun x => clean_top5_item (clean_text x))
         (filter (fun x => nonempty (clean_text x)) items))
  = Spec.normalized_items items.
Proof.
  unfold Spec.normalized_items.
  induction items as [|x items IH]; simpl; [reflexivity|].
  destruct (clean_text x) eqn:E; simpl.
  - exact IH.
  - rewrite <- E. simpl. rewrite IH. reflexivity.
Qed.

Lemma top5_from_list_unfold items :
  top5_from_list items =
  match Spec.normalized_items items with
  | [] => no_data
  | _ => most_common 5 (Counter (Spec.normalized_items items))
  end.
Proof. unfold top5_from_list. now rewrite cleaned_items_normalized. Qed.

(** C4. [top5_from_list] returns at most five entries, and it returns the
    sentinel [[("No data found", 0)]] exactly when normalizing and
    noise-filtering the items and dropping the empty ones leaves nothing. *)
Theorem top5_at_most_five_sentinel_iff_empty (items : list str) :
  length (top5_from_list items) <= 5
  /\ (top5_from_list items = [("No data found", 0)]
      <-> Spec.normalized_items items = []).
Proof.
  rewrite top5_from_list_unfold.
  destruct (Spec.normalized_items items) as [|x l] eqn:E.
  - split; [simpl; lia|]. split; reflexivity.
  - split; [apply most_common_length|].
    split; [|discriminate].
    intros H. exfalso. revert H. apply most_common_not_no_data. discriminate.
Qed.

Section DictFacts.

Lemma dict_get_set k v d k' :
  dict_get (dict_set k v d) k' = if str_eqb k' k then Some v else dict_get d k'.
Proof.
  induction d as [|[k0 v0] d IH]; simpl.
  - reflexivity.
  - destruct (str_eqb k k0) eqn:E; simpl.
    + apply str_eqb_eq in E. subst k0. destruct (str_eqb k' k); reflexivity.
    + destruct (str_eqb k' k0) eqn:E'; [|exact IH].
      apply str_eqb_eq in E'. subst k0.
      destruct (str_eqb k' k) eqn:E''; [|reflexivity].
      apply str_eqb_eq in E''. subst k'. rewrite str_eqb_refl in E. discriminate.
Qed.

Lemma count_of_set k v d k' :
  count_of (dict_set k v d) k' = if str_eqb k' k then v else count_of d k'.
Proof. unfold count_of. rewrite dict_get_set. now destruct (str_eqb k' k). Qed.

Lemma dict_get_keys d k : In k (keys d) <-> dict_get d k <> None.
Proof.
  induction d as [|[k0 v0] d IH]; simpl.
  - split; [tauto | congruence].
  - destruct (str_eqb k k0) eqn:E.
    + apply str_eqb_eq in E. split; [discriminate | auto].
    + apply str_eqb_neq in E. rewrite <- IH. split; [intros [H|H] | ]; auto; congruence.
Qed.

Lemma keys_set k v d : In k (keys d) -> keys (dict_set k v d) = keys d.
Proof.
  induction d as [|[k0 v0] d IH]; simpl; [tauto|].
  destruct (str_eqb k k0) eqn:E; simpl; [reflexivity|].
  apply str_eqb_neq in E. intros [H|H]; [congruence|]. now rewrite IH.
Qed.

Lemma keys_incr k d : keys (dict_incr k d) = keys d.
Proof.
  unfold dict_incr. destruct (dict_get d k) eqn:E; [|reflexivity].
  apply keys_set. apply dict_get_keys. congruence.
Qed.

(** [d[k] += 1] on a key of [d] adds one to the counter of [k] and leaves
    the others as they are. *)
Lemma incr_adds_one k d : In k (keys d) -> Spec.adds_one_to k d (dict_incr k d).
Proof.
  intros H k'. apply dict_get_keys in H. unfold dict_incr.
  destruct (dict_get d k) as [v|] eqn:E; [|congruence].
  rewrite count_of_set. destruct (str_eqb k' k) eqn:E'; [|lia].
  apply str_eqb_eq in E'. subst k'. unfold count_of. now rewrite E.
Qed.

End DictFacts.

Section LoopFacts.

Variable strptime : str -> str -> option datetime.

Lemma generic_categories_of doc :
  categories_of (analyze_generic_file strptime doc)
  = categories_of (generic_loop strptime doc).
Proof.
  unfold analyze_generic_file. now destruct (generic_loop strptime doc) as [[c i] t].
Qed.

Lemma search_categories_of doc :
  categories_of (analyze_search_file strptime doc)
  = categories_of (search_loop strptime doc).
Proof.
  unfold analyze_search_file. now destruct (search_loop strptime doc) as [[c i] t].
Qed.

Lemma generic_loop_snoc doc div :
  generic_loop strptime (doc ++ [div])
  = generic_div strptime (generic_loop strptime doc) div.
Proof. unfold generic_loop. now rewrite fold_left_app. Qed.

Lemma search_loop_snoc doc div :
  search_loop strptime (doc ++ [div])
  = search_div strptime (search_loop strptime doc) div.
Proof. unfold search_loop. now rewrite fold_left_app. Qed.

Lemma youtube_loop_snoc doc div :
  youtube_loop strptime (doc ++ [div])
  = youtube_div strptime (youtube_loop strptime doc) div.
Proof. unfold youtube_loop. now rewrite fold_left_app. Qed.

(** The chain of tests of the generic loop body increments one key of the
    dictionary. *)
Lemma generic_div_categories st div :
  exists k, In k (keys generic_categories)
            /\ categories_of (generic_div strptime st div) = dict_incr k (categories_of st).
Proof.
  destruct st as [[c i] t]. unfold generic_div, categories_of. cbv zeta.
  set (low := lower _).
  destruct (contains "searched" low || contains "search" low);
    [|destruct (contains "youtube" low || contains "watched" low);
      [|destruct (contains "maps" low || contains "location" low || contains "place" low);
        [|destruct (contains "shopping" low || contains "product" low);
          [|destruct (contains "discover" low)]]]];
    eexists; (split; [|reflexivity]); simpl; tauto.
Qed.

Lemma generic_loop_keys doc :
  keys (categories_of (generic_loop strptime doc)) = keys generic_categories.
Proof.
  induction doc as [|div doc IH] using rev_ind; [reflexivity|].
  rewrite generic_loop_snoc.
  destruct (generic_div_categories (generic_loop strptime doc) div) as (k & _ & E).
  now rewrite E, keys_incr.
Qed.

(** The loop over the search phrases stops at the first phrase that the
    text contains. *)
Lemma search_scan_find phrases text categories search_terms :
  search_scan phrases text categories search_terms =
  match find (fun phrase => contains phrase text) phrases with
  | Some phrase =>
      (dict_incr "Search" categories,
       if nonempty (search_term phrase text)
       then search_terms ++ [search_term phrase text] else search_terms,
       true)
  | None => (categories, search_terms, false)
  end.
Proof.
  induction phrases as [|phrase phrases IH]; simpl; [reflexivity|].
  destruct (contains phrase text); [reflexivity | exact IH].
Qed.

Lemma search_div_find st div :
  search_div strptime st div =
  match find (fun phrase => contains phrase (block_text div)) search_phrases with
  | Some phrase =>
      (dict_incr "Search" (categories_of st),
       if nonempty (search_term phrase (block_text div))
       then terms_of st ++ [search_term phrase (block_text div)] else terms_of st,
       times_of st ++ timestamp_of strptime div)
  | None =>
      (dict_incr "Other" (categories_of st), terms_of st,
       times_of st ++ timestamp_of strptime div)
  end.
Proof.
  destruct st as [[c i] t]. unfold search_div. cbv zeta.
  rewrite search_scan_find. fold (block_text div).
  now destruct (find _ search_phrases).
Qed.

Lemma search_loop_keys doc :
  keys (categories_of (search_loop strptime doc)) = keys search_categories.
Proof.
  induction doc as [|div doc IH] using rev_ind; [reflexivity|].
  rewrite search_loop_snoc, search_div_find.
  destruct (find _ search_phrases); unfold categories_of; simpl fst;
    now rewrite keys_incr.
Qed.

End LoopFacts.

(* ================================================================== *)
(** * Category counters (C1, C8, C10) *)
(* ================================================================== *)

Section Counters.

Variable strptime : str -> str -> option datetime.

Lemma youtube_counts doc :
  count_of (categories_of (analyze_youtube_file strptime doc)) "YouTube"
  = length (fst (fst (youtube_loop strptime doc)))
  /\ count_of (categories_of (analyze_youtube_file strptime doc)) "Search"
     = length (snd (fst (youtube_loop strptime doc))).
Proof.
  unfold analyze_youtube_file.
  destruct (youtube_loop strptime doc) as [[titles queries] times].
  cbv zeta. unfold categories_of. cbn [fst snd].
  rewrite !count_of_set. split; reflexivity.
Qed.

Lemma discover_count doc :
  count_of (categories_of (analyze_discover_file strptime doc)) "Discover"
  = length (fst (discover_loop strptime doc)).
Proof.
  unfold analyze_discover_file.
  destruct (discover_loop strptime doc) as [items times].
  cbv zeta. unfold categories_of. cbn [fst snd].
  rewrite count_of_set, Counter_sum. reflexivity.
Qed.

Lemma generic_block_adds_one doc div :
  exists k,
    In k (keys generic_categories)
    /\ Spec.adds_one_to k
         (categories_of (analyze_generic_file strptime doc))
         (categories_of (analyze_generic_file strptime (doc ++ [div]))).
Proof.
  rewrite !generic_categories_of, generic_loop_snoc.
  destruct (generic_div_categories strptime (generic_loop strptime doc) div)
    as (k & Hk & E).
  exists k. split; [exact Hk|].
  rewrite E. apply incr_adds_one. now rewrite generic_loop_keys.
Qed.

Lemma search_block_adds_one doc div :
  Spec.adds_one_to
    (match find (fun phrase => contains phrase (block_text div)) search_phrases with
     | Some _ => "Search"
     | None => "Other"
     end)
    (categories_of (analyze_search_file strptime doc))
    (categories_of (analyze_search_file strptime (doc ++ [div]))).
Proof.
  rewrite !search_categories_of, search_loop_snoc, search_div_find.
  destruct (find _ search_phrases); unfold categories_of at 2; simpl fst;
    apply incr_adds_one; rewrite search_loop_keys; simpl; tauto.
Qed.

(** C1, amended.  In the generic and the search analyzers every block adds
    one to exactly one category counter.  The YouTube analyzer sets its
    YouTube and Search counters to the sizes of the title list and of the
    query list, and the Discover analyzer sets its counter to the number of
    collected items; they do not count per block. *)
Theorem one_counter_per_block_generic_and_search (doc : document) (div : div_element) :
  (exists k,
     In k ["Search"; "YouTube"; "Maps"; "Shopping"; "Discover"; "Other"]
     /\ Spec.adds_one_to k
          (categories_of (analyze_generic_file strptime doc))
          (categories_of (analyze_generic_file strptime (doc ++ [div]))))
  /\ (exists k,
        In k ["Search"; "Other"]
        /\ Spec.adds_one_to k
             (categories_of (analyze_search_file strptime doc))
             (categories_of (analyze_search_file strptime (doc ++ [div]))))
  /\ (count_of (categories_of (analyze_youtube_file strptime doc)) "YouTube"
      = length (fst (fst (youtube_loop strptime doc)))
      /\ count_of (categories_of (analyze_youtube_file strptime doc)) "Search"
         = length (snd (fst (youtube_loop strptime doc))))
  /\ count_of (categories_of (analyze_discover_file strptime doc)) "Discover"
     = length (fst (discover_loop strptime doc)).
Proof.
  split; [apply generic_block_adds_one|].
  split.
  { eexists. split; [|apply search_block_adds_one].
    destruct (find _ search_phrases); simpl; tauto. }
  split; [apply youtube_counts | apply discover_count].
Qed.

(** C8. A block whose text holds one of the search phrases adds one to the
    Search counter (and to no other), whatever the term turns out to be: an
    empty term is left out of the list of terms, any other is appended. *)
Theorem search_counted_even_when_term_empty
    (doc : document) (div : div_element) (phrase : str) :
  find (fun phrase => contains phrase (block_text div)) search_phrases = Some phrase ->
  Spec.adds_one_to "Search"
    (categories_of (search_loop strptime doc))
    (categories_of (search_loop strptime (doc ++ [div])))
  /\ (search_term phrase (block_text div) = "" ->
      terms_of (search_loop strptime (doc ++ [div])) = terms_of (search_loop strptime doc))
  /\ (search_term phrase (block_text div) <> "" ->
      terms_of (search_loop strptime (doc ++ [div]))
      = terms_of (search_loop strptime doc) ++ [search_term phrase (block_text div)]).
Proof.
  intros H. rewrite search_loop_snoc, search_div_find, H.
  unfold categories_of at 2, terms_of at 1 3. simpl fst. simpl snd.
  split; [apply incr_adds_one; rewrite search_loop_keys; simpl; tauto|].
  split; intros E.
  - now rewrite E.
  - apply nonempty_true in E. now rewrite E.
Qed.

(** C10. The phrases are matched as they are written: a block whose text
    holds none of the three literals adds one to Other, leaves Search as it
    is, and adds no term. *)
Theorem search_phrases_case_sensitive (doc : document) (div : div_element) :
  existsb (fun phrase => contains phrase (block_text div)) search_phrases = false ->
  Spec.adds_one_to "Other"
    (categories_of (search_loop strptime doc))
    (categories_of (search_loop strptime (doc ++ [div])))
  /\ count_of (categories_of (search_loop strptime (doc ++ [div]))) "Search"
     = count_of (categories_of (search_loop strptime doc)) "Search"
  /\ terms_of (search_loop strptime (doc ++ [div])) = terms_of (search_loop strptime doc).
Proof.
  intros H.
  assert (F : find (fun phrase => contains phrase (block_text div)) search_phrases = None).
  { destruct (find _ search_phrases) eqn:E; [|reflexivity].
    apply find_some in E. destruct E as [E1 E2].
    assert (X : existsb (fun phrase => contains phrase (block_text div)) search_phrases = true)
      by (apply existsb_exists; eauto).
    congruence. }
  assert (A : Spec.adds_one_to "Other"
                (categories_of (search_loop strptime doc))
                (categories_of (search_loop strptime (doc ++ [div])))).
  { rewrite search_loop_snoc, search_div_find, F. unfold categories_of at 2. simpl fst.
    apply incr_adds_one. rewrite search_loop_keys. simpl. tauto. }
  split; [exact A|]. split.
  - rewrite (A "Search"). simpl. lia.
  - rewrite search_loop_snoc, search_div_find, F. reflexivity.
Qed.

End Counters.

(** C1 as stated fails for the YouTube analyzer: a block with no search
    phrase and no link leaves every counter as it was, and a search entry
    whose link points to youtube.com raises both Search and YouTube. *)
Lemma youtube_block_adds_none_or_two :
  categories_of (analyze_youtube_file no_strptime ([] ++ [text_block "Liked a video"]))
  = categories_of (analyze_youtube_file no_strptime [])
  /\ count_of (categories_of (analyze_youtube_file no_strptime ([] ++ [youtube_search_block]))) "Search"
     = count_of (categories_of (analyze_youtube_file no_strptime [])) "Search" + 1
  /\ count_of (categories_of (analyze_youtube_file no_strptime ([] ++ [youtube_search_block]))) "YouTube"
     = count_of (categories_of (analyze_youtube_file no_strptime [])) "YouTube" + 1.
Proof. vm_compute. repeat split. Qed.

(** The Discover analyzer does not count per block either: the sample block
    of one item line followed by a second one raises its counter by two. *)
Example discover_block_adds_two :
  count_of
    (categories_of
       (analyze_discover_file no_strptime
          [{| div_strings := ["Discover"; "Details"; "Running shoes"; "Trail maps"];
              div_a := None; div_span := None |}]))
    "Discover" = 2.
Proof. vm_compute. reflexivity. Qed.

Lemma search_counted_even_when_term_empty_witness :
  find (fun phrase => contains phrase (block_text (text_block "Searched for")))
       search_phrases = Some "Searched for"
  /\ (Spec.adds_one_to "Search"
        (categories_of (search_loop no_strptime []))
        (categories_of (search_loop no_strptime ([] ++ [text_block "Searched for"])))
      /\ (search_term "Searched for" (block_text (text_block "Searched for")) = "" ->
          terms_of (search_loop no_strptime ([] ++ [text_block "Searched for"]))
          = terms_of (search_loop no_strptime []))
      /\ (search_term "Searched for" (block_text (text_block "Searched for")) <> "" ->
          terms_of (search_loop no_strptime ([] ++ [text_block "Searched for"]))
          = terms_of (search_loop no_strptime [])
            ++ [search_term "Searched for" (block_text (text_block "Searched for"))])).
Proof.
  split; [reflexivity|].
  apply (search_counted_even_when_term_empty no_strptime [] (text_block "Searched for")
           "Searched for").
  reflexivity.
Defined.

(** A term that is only punctuation normalizes to the empty string: the
    block is counted and no term is kept. *)
Example search_punctuation_only :
  search_loop no_strptime [text_block "Searched for ?!"]
  = ([("Search", 1); ("Other", 0)], [], []).
Proof. vm_compute. reflexivity. Qed.

Lemma search_phrases_case_sensitive_witness :
  existsb (fun phrase => contains phrase (block_text (text_block "searched for cats")))
          search_phrases = false
  /\ (Spec.adds_one_to "Other"
        (categories_of (search_loop no_strptime []))
        (categories_of (search_loop no_strptime ([] ++ [text_block "searched for cats"])))
      /\ count_of (categories_of
                     (search_loop no_strptime ([] ++ [text_block "searched for cats"])))
                  "Search"
         = count_of (categories_of (search_loop no_strptime [])) "Search"
      /\ terms_of (search_loop no_strptime ([] ++ [text_block "searched for cats"]))
         = terms_of (search_loop no_strptime [])).
Proof.
  split; [reflexivity|].
  apply (search_phrases_case_sensitive no_strptime [] (text_block "searched for cats")).
  reflexivity.
Defined.

Example search_lowercase_variant :
  analyze_search_file no_strptime [text_block "searched for cats"]
  = ([("Search", 0); ("Other", 1)], [("No data found", 0)], []).
Proof. vm_compute. reflexivity. Qed.

(* ================================================================== *)
(** * Search terms and queries on sample blocks (C2, C9) *)
(* ================================================================== *)

(** C2. On the block "Searched for cats and dogs at 10:30" the search
    analyzer counts one search and keeps the term "cats and dogs at 10 30":
    the time fragment is not stripped, [clean_text] having turned its colon
    into a space before [time_re] is tried. *)
Theorem search_term_keeps_time_fragment (strptime : str -> str -> option datetime) :
  search_loop strptime [text_block "Searched for cats and dogs at 10:30"]
  = ([("Search", 1); ("Other", 0)], ["cats and dogs at 10 30"], []).
Proof. vm_compute. reflexivity. Qed.

(** C9. The loop over the phrases of the YouTube analyzer has no [break]: a
    block whose text holds two of them appends two queries. *)
Theorem youtube_block_appends_two_queries (strptime : str -> str -> option datetime) :
  youtube_loop strptime [text_block "Searched for how to Search for files"]
  = ([], ["how to search for files"; "files"], []).
Proof. vm_compute. reflexivity. Qed.

Example youtube_two_queries_counted (strptime : str -> str -> option datetime) :
  categories_of
    (analyze_youtube_file strptime [text_block "Searched for how to Search for files"])
  = [("YouTube", 0); ("Search", 2); ("Maps", 0); ("Shopping", 0);
     ("Discover", 0); ("Other", 0)].
Proof. vm_compute. reflexivity. Qed.

(* ================================================================== *)
(** * Facts about the matcher *)
(* ================================================================== *)

Module ReFacts.

Lemma in_all_ascii c : In c all_ascii.
Proof.
  unfold all_ascii. rewrite <- (ascii_nat_embedding c).
  apply in_map, in_seq. pose proof (nat_ascii_bounded c). lia.
Qed.

(** A property of characters that holds of each of the 256 holds of all. *)
Lemma ascii_cases (P : ascii -> bool) : forallb P all_ascii = true -> forall c, P c = true.
Proof. intros H c. rewrite forallb_forall in H. apply H, in_all_ascii. Qed.

Lemma matches_Seq a b p : matches (Seq a b) p = flat_map (matches b) (matches a p).
Proof. reflexivity. Qed.

Lemma matches_Star a p :
  matches (Star a) p = star_from (matches a) (S (length (snd p))) p.
Proof. reflexivity. Qed.

Lemma matches_class_cons f prev c s :
  matches (Chr f) (prev, c :: s) = if f c then [(Some c, s)] else [].
Proof. reflexivity. Qed.

Lemma star_from_S step n p :
  star_from step (S n) p
  = flat_map
      (fun q => if length (snd q) <? length (snd p) then star_from step n q else [])
      (step p)
    ++ [p].
Proof. reflexivity. Qed.

Lemma star_from_ends step : forall fuel (p q : pos),
  (forall p q : pos, In q (step p) -> exists pre : str, snd p = pre ++ snd q) ->
  In q (star_from step fuel p) -> exists pre : str, snd p = pre ++ snd q.
Proof.
  induction fuel as [|n IH]; intros p q Hstep; simpl.
  - intros [<-|[]]. now exists [].
  - rewrite in_app_iff, in_flat_map. intros [(q' & Hq' & Hq)|[<-|[]]].
    + destruct (length (snd q') <? length (snd p)); [|destruct Hq].
      destruct (Hstep _ _ Hq') as [pre1 E1].
      destruct (IH _ _ Hstep Hq) as [pre2 E2].
      exists (pre1 ++ pre2). now rewrite E1, E2, app_assoc.
    + now exists [].
Qed.

(** A match ends inside the text it started in. *)
Lemma matches_ends r : forall p q : pos,
  In q (matches r p) -> exists pre : str, snd p = pre ++ snd q.
Proof.
  induction r as [|f|a IHa b IHb|a IHa b IHb|a IHa| | |]; intros p q.
  - simpl. intros [<-|[]]. now exists [].
  - simpl. destruct p as [prev [|c s]]; simpl; [intros []|].
    destruct (f c); [|intros []]. intros [<-|[]]. now exists [c].
  - simpl. rewrite in_flat_map. intros (q' & H1 & H2).
    destruct (IHa _ _ H1) as [pre1 E1]. destruct (IHb _ _ H2) as [pre2 E2].
    exists (pre1 ++ pre2). now rewrite E1, E2, app_assoc.
  - simpl. rewrite in_app_iff. intros [H|H]; eauto.
  - change (matches (Star a) p) with (star_from (matches a) (S (length (snd p))) p).
    apply star_from_ends. exact IHa.
  - simpl. destruct (fst p); [intros []|]. intros [<-|[]]. now exists [].
  - simpl. destruct (snd p) as [|c [|d s]] eqn:E; try (intros []; fail).
    + intros [<-|[]]. exists []. now rewrite E.
    + destruct (Ascii.eqb c newline); [|intros []]. intros [<-|[]].
      exists []. now rewrite E.
  - simpl. destruct (xorb _ _); [|intros []]. intros [<-|[]]. now exists [].
Qed.

Lemma matches_no_longer r (p q : pos) :
  In q (matches r p) -> length (snd q) <= length (snd p).
Proof.
  intros H. destruct (matches_ends r p q H) as [pre E].
  apply (f_equal (@length ascii)) in E. rewrite length_app in E. lia.
Qed.

(** A pattern that is not [nullable] consumes at least one character in
    every match. *)
Lemma matches_progress r : forall p q : pos,
  nullable r = false -> In q (matches r p) -> length (snd q) < length (snd p).
Proof.
  induction r as [|f|a IHa b IHb|a IHa b IHb|a IHa| | |]; intros p q N;
    cbn [nullable] in N; try discriminate N.
  - destruct p as [prev [|c s]]; cbn [matches snd]; [intros []|].
    destruct (f c); [|intros []]. intros [<-|[]]. simpl. lia.
  - rewrite matches_Seq, in_flat_map. intros (q' & H1 & H2).
    pose proof (matches_no_longer _ _ _ H1). pose proof (matches_no_longer _ _ _ H2).
    apply andb_false_iff in N. destruct N as [N|N].
    + specialize (IHa _ _ N H1). lia.
    + specialize (IHb _ _ N H2). lia.
  - cbn [matches]. apply orb_false_iff in N. destruct N as [Na Nb].
    rewrite in_app_iff. intros [H|H]; eauto.
Qed.

(** No pattern of [main.py] matches the empty string. *)
Lemma patterns_consume :
  forallb (fun r => negb (nullable r))
          [html_tag_re; url_re; www_re; special_re; spaces_re; connector_re;
           time_re; viewed_dash_re; viewed_re; card_re] = true.
Proof. reflexivity. Qed.

(** The fuel of [matches] for a star is enough: more of it changes nothing. *)
Lemma star_from_fuel step : forall n m (p : pos),
  length (snd p) < n -> length (snd p) < m -> star_from step n p = star_from step m p.
Proof.
  induction n as [|n IH]; intros m p Hn Hm; [lia|].
  destruct m as [|m]; [lia|]. rewrite !star_from_S. f_equal.
  apply flat_map_ext. intros q.
  destruct (length (snd q) <? length (snd p)) eqn:E; [|reflexivity].
  apply Nat.ltb_lt in E. unfold pos, str in *. apply IH; lia.
Qed.

Lemma Forall_suffix (P : ascii -> Prop) (pre s : str) : Forall P (pre ++ s) -> Forall P s.
Proof. intros H. apply Forall_app in H. tauto. Qed.

(** A blocked pattern has no match in a text of good characters. *)
Lemma blocked_no_match good r : forall p : pos,
  blocked good r = true -> Forall (fun c => good c = true) (snd p) -> matches r p = [].
Proof.
  induction r as [|f|a IHa b IHb|a IHa b IHb|a IHa| | |]; intros p B G;
    cbn [blocked] in B; try discriminate B.
  - destruct p as [prev [|c s]]; cbn [matches snd]; [reflexivity|].
    cbn [snd] in G. inversion G as [|? ? Gc Gs]; subst.
    pose proof (ascii_cases _ B c) as X. cbv beta in X. rewrite Gc in X.
    destruct (f c); [discriminate X | reflexivity].
  - cbn [matches]. apply orb_true_iff in B. destruct B as [B|B].
    + now rewrite (IHa p B G).
    + assert (A : forall q, In q (matches a p) -> matches b q = []).
      { intros q Hq. apply IHb; [exact B|].
        destruct (matches_ends _ _ _ Hq) as [pre E]. rewrite E in G.
        now apply Forall_suffix in G. }
      induction (matches a p) as [|q l IHl]; simpl; [reflexivity|].
      rewrite A by (now left). apply IHl. intros q' Hq'. apply A. now right.
  - cbn [matches]. apply andb_true_iff in B. destruct B as [Ba Bb].
    now rewrite (IHa p Ba G), (IHb p Bb G).
Qed.

(** [re.sub] with a blocked pattern returns its text. *)
Lemma sub_from_blocked good r repl : forall s prev,
  blocked good r = true -> Forall (fun c => good c = true) s ->
  sub_from r repl 0 prev s = s.
Proof.
  induction s as [|c s IH]; intros prev B G; simpl; [reflexivity|].
  unfold match_length. rewrite (blocked_no_match good r _ B) by exact G.
  inversion G; subst. now rewrite IH.
Qed.

Lemma sub_blocked good r repl s :
  blocked good r = true -> Forall (fun c => good c = true) s -> sub r repl s = s.
Proof. apply sub_from_blocked. Qed.

(** [re.sub] writes only characters of the text and of the replacement. *)
Lemma sub_from_Forall (P : ascii -> Prop) r repl : forall s skip prev,
  Forall P repl -> Forall P s -> Forall P (sub_from r repl skip prev s).
Proof.
  induction s as [|c s IH]; intros skip prev Hr Hs; simpl; [constructor|].
  inversion Hs; subst. destruct skip as [|k]; [|now apply IH].
  destruct (match_length _ _) as [[|k]|].
  - constructor; auto.
  - apply Forall_app. split; auto.
  - constructor; auto.
Qed.

Lemma sub_Forall (P : ascii -> Prop) r repl s :
  Forall P repl -> Forall P s -> Forall P (sub r repl s).
Proof. apply sub_from_Forall. Qed.

Lemma match_length_class f prev c s :
  match_length (Chr f) (prev, c :: s) = if f c then Some 1 else None.
Proof.
  unfold match_length. cbn [matches snd]. destruct (f c); [|reflexivity].
  cbn [snd length]. f_equal. lia.
Qed.

(** [re.sub] of a character class by one character rewrites the text
    character by character. *)
Lemma sub_from_class f x : forall s prev,
  sub_from (Chr f) [x] 0 prev s = map (fun c => if f c then x else c) s.
Proof.
  induction s as [|c s IH]; intros prev; [reflexivity|].
  cbn [sub_from map]. rewrite match_length_class.
  destruct (f c); cbn [app]; now rewrite IH.
Qed.

(** Skipping the characters of a match resumes after them. *)
Lemma sub_from_skip r repl : forall s skip prev,
  exists prev', sub_from r repl skip prev s = sub_from r repl 0 prev' (skipn skip s).
Proof.
  induction s as [|c s IH]; intros skip prev.
  - exists prev. now destruct skip.
  - destruct skip as [|k]; [now exists prev|]. simpl. apply IH.
Qed.

(** The greedy star of a class stops after the longest run of the class. *)
Lemma star_class_first f : forall fuel prev s,
  length s < fuel ->
  exists q rest,
    star_from (matches (Chr f)) fuel (prev, s) = q :: rest
    /\ snd q = drop_class f s.
Proof.
  assert (Hcons : forall prev c s,
             matches (Chr f) (prev, c :: s) = if f c then [(Some c, s)] else [])
    by reflexivity.
  assert (Hnil : forall prev, matches (Chr f) (prev, []) = []) by reflexivity.
  induction fuel as [|n IH]; intros prev s L; [lia|].
  rewrite star_from_S. destruct s as [|c s]; cbn [drop_class].
  - rewrite Hnil. now exists (prev, []), [].
  - rewrite Hcons. destruct (f c) eqn:E; cbn [flat_map app snd].
    + assert (Hlt : (length s <? length (c :: s)) = true)
        by (apply Nat.ltb_lt; simpl; lia).
      rewrite Hlt. simpl in L. destruct (IH (Some c) s) as (q & rest & E1 & E2); [lia|].
      rewrite E1. exists q, ((rest ++ []) ++ [(prev, c :: s)]). split; [reflexivity|].
      exact E2.
    + now exists (prev, c :: s), [].
Qed.

Lemma drop_class_length f s : length (drop_class f s) <= length s.
Proof.
  induction s as [|c s IH]; simpl; [lia|]. destruct (f c); simpl; lia.
Qed.

Lemma skipn_drop_class f s : skipn (length s - length (drop_class f s)) s = drop_class f s.
Proof.
  induction s as [|c s IH]; [reflexivity|]. cbn [drop_class].
  destruct (f c).
  - pose proof (drop_class_length f s).
    replace (length (c :: s) - length (drop_class f s))
      with (S (length s - length (drop_class f s))) by (cbn [length]; lia).
    exact IH.
  - now rewrite Nat.sub_diag.
Qed.

(** The match of [a+], for a class [a], at a position. *)
Lemma match_length_plus_class f prev c s :
  match_length (plus (Chr f)) (prev, c :: s) =
  if f c then Some (S (length s - length (drop_class f s))) else None.
Proof.
  unfold match_length, plus. rewrite matches_Seq, matches_class_cons.
  destruct (f c); [|reflexivity].
  cbn [flat_map]. rewrite app_nil_r, matches_Star. cbn [snd].
  destruct (star_class_first f (S (length s)) (Some c) s) as (q & rest & E1 & E2); [lia|].
  rewrite E1, E2. f_equal. pose proof (drop_class_length f s). cbn [length]. lia.
Qed.

Lemma drop_class_lstrip s : drop_class is_space s = lstrip s.
Proof. induction s as [|c s IH]; simpl; [reflexivity|]. now rewrite IH. Qed.

Lemma collapse_from_lstrip s : collapse_from true s = collapse_from false (lstrip s).
Proof.
  induction s as [|c s IH]; [reflexivity|]. cbn [lstrip collapse_from].
  destruct (is_space c) eqn:E; [exact IH|]. cbn [collapse_from]. now rewrite E.
Qed.

(** [re.sub(r"\s+", " ", s)] writes one space for each run of whitespace. *)
Lemma sub_spaces_collapse : forall n s prev,
  length s <= n -> sub_from spaces_re " " 0 prev s = collapse_from false s.
Proof.
  induction n as [|n IH]; intros s prev L.
  - destruct s; [reflexivity | simpl in L; lia].
  - destruct s as [|c s]; [reflexivity|].
    cbn [sub_from collapse_from]. unfold spaces_re, any_space.
    rewrite match_length_plus_class. destruct (is_space c); cbn [app].
    + destruct (sub_from_skip (plus (Chr is_space)) " "%str s
                  (length s - length (drop_class is_space s)) (Some c)) as [prev' E].
      rewrite E, skipn_drop_class, drop_class_lstrip, collapse_from_lstrip.
      f_equal. apply IH. rewrite <- drop_class_lstrip.
      pose proof (drop_class_length is_space s). simpl in L. lia.
    + f_equal. apply IH. simpl in L. lia.
Qed.

End ReFacts.
Import ReFacts.

(* ================================================================== *)
(** * The shape of normalized text (C7) *)
(* ================================================================== *)

Module Tidy.

(** ** Characters *)

Lemma blank_eq c : is_blank c = true <-> c = " "%char.
Proof. unfold is_blank. apply Ascii.eqb_eq. Qed.

(** An implication between two classes that holds of each of the 256
    characters. *)
Lemma char_implies (A B : ascii -> bool) :
  forallb (fun c => implb (A c) (B c)) all_ascii = true ->
  forall c, A c = true -> B c = true.
Proof.
  intros H c Hc. pose proof (ascii_cases _ H c) as X. cbv beta in X.
  now rewrite Hc in X.
Qed.

Lemma alnum_not_space c : is_alnum_ascii c = true -> is_space c = false.
Proof.
  intros H. apply negb_true_iff. revert c H.
  apply (char_implies is_alnum_ascii (fun c => negb (is_space c))).
  vm_compute. reflexivity.
Qed.

Lemma alnum_not_blank c : is_alnum_ascii c = true -> is_blank c = false.
Proof.
  intros H. destruct (is_blank c) eqn:E; [|reflexivity].
  apply blank_eq in E. subst c. discriminate H.
Qed.

Lemma lower_alnum_is_alnum c : is_lower_alnum c = true -> is_alnum_ascii c = true.
Proof.
  revert c. apply (char_implies is_lower_alnum is_alnum_ascii).
  vm_compute. reflexivity.
Qed.

Lemma lower_of_alnum c : is_alnum_ascii c = true -> is_lower_alnum (lower_char c) = true.
Proof.
  revert c. apply (char_implies is_alnum_ascii (fun c => is_lower_alnum (lower_char c))).
  vm_compute. reflexivity.
Qed.

Lemma lower_of_lower_alnum c : is_lower_alnum c = true -> lower_char c = c.
Proof.
  intros H. apply Ascii.eqb_eq. revert c H.
  apply (char_implies is_lower_alnum (fun c => Ascii.eqb (lower_char c) c)).
  vm_compute. reflexivity.
Qed.

Lemma lower_blank : lower_char " " = " "%char.
Proof. reflexivity. Qed.

(** What [re.sub(r"[^A-Za-z0-9\s]", " ", s)] leaves: alphanumerics and
    whitespace. *)
Lemma special_replaced s :
  Forall (fun c => is_alnum_ascii c || is_space c = true)
         (map (fun c => if negb (is_alnum_ascii c || is_space c) then " "%char else c) s).
Proof.
  induction s as [|c s IH]; simpl; constructor; auto.
  destruct (is_alnum_ascii c || is_space c) eqn:E; simpl; [exact E | reflexivity].
Qed.

(** ** Stripping *)

Lemma lstrip_app a b : lstrip (a ++ b) = match lstrip a with [] => lstrip b | l => l ++ b end.
Proof.
  induction a as [|c a IH]; simpl; [now destruct (lstrip b)|].
  destruct (is_space c); [exact IH | reflexivity].
Qed.

Lemma rstrip_cons c s :
  rstrip (c :: s) =
  match rstrip s with
  | [] => if is_space c then [] else [c]
  | r => c :: r
  end.
Proof.
  unfold rstrip. simpl rev. rewrite lstrip_app.
  destruct (lstrip (rev s)) as [|d l] eqn:E; simpl.
  - now destruct (is_space c).
  - rewrite rev_app_distr. simpl. destruct (rev l ++ [d]) eqn:E'; [|reflexivity].
    now destruct (rev l).
Qed.

(** ** From the collapsed text to the tidy text *)

Lemma collapse_spaced : forall s b,
  Forall (fun c => is_alnum_ascii c || is_space c = true) s ->
  spaced is_alnum_ascii b (collapse_from b s) = true.
Proof.
  induction s as [|c s IH]; intros b H; [reflexivity|].
  inversion H as [|? ? Hc Hs]; subst. cbn [collapse_from].
  destruct (is_space c) eqn:E.
  - destruct b; [now apply IH|]. cbn [spaced]. simpl. now apply IH.
  - rewrite orb_false_r in Hc. cbn [spaced].
    rewrite (alnum_not_blank _ Hc), Hc. simpl. now apply IH.
Qed.

Lemma lstrip_spaced : forall s b,
  spaced is_alnum_ascii b s = true -> spaced is_alnum_ascii true (lstrip s) = true.
Proof.
  induction s as [|c s IH]; intros b H; [reflexivity|].
  cbn [spaced] in H. cbn [lstrip]. destruct (is_blank c) eqn:E.
  - apply blank_eq in E. subst c. simpl. apply andb_true_iff in H. destruct H as [_ H].
    now apply (IH true).
  - apply andb_true_iff in H. destruct H as [Hc H].
    rewrite (alnum_not_space _ Hc). cbn [spaced]. now rewrite E, Hc, H.
Qed.

Lemma rstrip_tidy : forall s b,
  spaced is_alnum_ascii b s = true -> tidy_from is_alnum_ascii b (rstrip s) = true.
Proof.
  induction s as [|c s IH]; intros b H; [reflexivity|].
  cbn [spaced] in H. rewrite rstrip_cons. destruct (is_blank c) eqn:E.
  - apply andb_true_iff in H. destruct H as [Hb H]. specialize (IH true H).
    pose proof E as E'. apply blank_eq in E'. subst c.
    destruct (rstrip s) as [|d r]; [reflexivity|].
    cbn [tidy_from]. rewrite E, Hb. simpl. exact IH.
  - apply andb_true_iff in H. destruct H as [Hc H]. specialize (IH false H).
    rewrite (alnum_not_space _ Hc).
    destruct (rstrip s) as [|d r]; cbn [tidy_from]; rewrite E, Hc; [reflexivity|].
    exact IH.
Qed.

Lemma lower_tidy : forall s b,
  tidy_from is_alnum_ascii b s = true -> tidy_from is_lower_alnum b (lower s) = true.
Proof.
  induction s as [|c s IH]; intros b H; [reflexivity|].
  cbn [tidy_from] in H. cbn [lower map tidy_from]. destruct (is_blank c) eqn:E.
  - apply blank_eq in E. subst c. rewrite lower_blank. simpl.
    apply andb_true_iff in H. destruct H as [H1 H2].
    apply andb_true_iff in H1. destruct H1 as [Hb Hn]. rewrite Hb. simpl.
    fold (lower s). rewrite (IH true H2).
    destruct s; [discriminate Hn | reflexivity].
  - apply andb_true_iff in H. destruct H as [Hc H].
    pose proof (lower_of_alnum _ Hc) as L.
    rewrite (alnum_not_blank _ (lower_alnum_is_alnum _ L)), L. simpl.
    fold (lower s). now apply IH.
Qed.

(** [clean_text] always returns a tidy text. *)
Lemma clean_text_tidy s : tidy (clean_text s) = true.
Proof.
  unfold clean_text. destruct (nonempty s); [|reflexivity]. cbv zeta.
  unfold tidy, strip. apply lower_tidy, (rstrip_tidy _ true), (lstrip_spaced _ false).
  unfold sub at 1. rewrite (sub_spaces_collapse _ _ _ (le_n _)).
  apply collapse_spaced. unfold sub at 1, special_re. rewrite sub_from_class.
  apply special_replaced.
Qed.

End Tidy.
Import Tidy.

Module TidyFacts.

Lemma tidy_chars ok : forall s b,
  tidy_from ok b s = true -> Forall (fun c => ok c = true \/ c = " "%char) s.
Proof.
  induction s as [|c s IH]; intros b H; [constructor|].
  cbn [tidy_from] in H. destruct (is_blank c) eqn:E.
  - apply andb_true_iff in H. destruct H as [_ H].
    constructor; [right; now apply blank_eq | now apply (IH true)].
  - apply andb_true_iff in H. destruct H as [Hc H].
    constructor; [now left | now apply (IH false)].
Qed.

Lemma tidy_good : forall s b,
  tidy_from is_lower_alnum b s = true -> Forall (fun c => good c = true) s.
Proof.
  intros s b H. apply tidy_chars in H. eapply Forall_impl; [|exact H].
  intros c [Hc|Hc]; unfold good; [now rewrite Hc|].
  subst c. reflexivity.
Qed.

Lemma startswith_blank c s : startswith (c :: s) " " = is_blank c.
Proof.
  unfold is_blank.
  change (startswith (c :: s) " ") with (Ascii.eqb " " c && true).
  rewrite andb_true_r. apply Ascii.eqb_sym.
Qed.

(** No blank at the start. *)
Lemma tidy_no_leading_blank ok s :
  tidy_from ok true s = true -> startswith s " " = false.
Proof.
  destruct s as [|c s]; [reflexivity|]. rewrite startswith_blank.
  cbn [tidy_from]. now destruct (is_blank c).
Qed.

(** No two blanks in a row. *)
Lemma tidy_no_double_blank ok : forall s b,
  tidy_from ok b s = true -> contains "  " s = false.
Proof.
  induction s as [|c s IH]; intros b H; [reflexivity|].
  cbn [tidy_from] in H. cbn [contains].
  change (startswith (c :: s) "  ") with (Ascii.eqb " " c && startswith s " ").
  rewrite Ascii.eqb_sym. fold (is_blank c). destruct (is_blank c) eqn:E.
  - apply andb_true_iff in H. destruct H as [_ H].
    rewrite (tidy_no_leading_blank ok s H). simpl. now apply (IH true).
  - apply andb_true_iff in H. destruct H as [_ H]. simpl. now apply (IH false).
Qed.

Lemma collapse_tidy : forall s b b',
  tidy_from is_lower_alnum b s = true -> (b' = true -> b = true) ->
  collapse_from b' s = s.
Proof.
  induction s as [|c s IH]; intros b b' H Hb; [reflexivity|].
  cbn [tidy_from] in H. cbn [collapse_from]. destruct (is_blank c) eqn:E.
  - apply blank_eq in E. subst c. simpl.
    apply andb_true_iff in H. destruct H as [H1 H].
    apply andb_true_iff in H1. destruct H1 as [H1 _].
    destruct b; [discriminate H1|]. destruct b'; [now specialize (Hb eq_refl)|].
    f_equal. now apply (IH true).
  - apply andb_true_iff in H. destruct H as [Hc H].
    rewrite (alnum_not_space _ (lower_alnum_is_alnum _ Hc)).
    f_equal. now apply (IH false).
Qed.

Lemma lstrip_tidy s : tidy s = true -> lstrip s = s.
Proof.
  destruct s as [|c s]; [reflexivity|]. unfold tidy. cbn [tidy_from lstrip].
  destruct (is_blank c) eqn:E; [discriminate|]. intros H.
  apply andb_true_iff in H. destruct H as [Hc _].
  now rewrite (alnum_not_space _ (lower_alnum_is_alnum _ Hc)).
Qed.

Lemma rstrip_of_tidy : forall s b, tidy_from is_lower_alnum b s = true -> rstrip s = s.
Proof.
  induction s as [|c s IH]; intros b H; [reflexivity|].
  cbn [tidy_from] in H. rewrite rstrip_cons. destruct (is_blank c) eqn:E.
  - apply andb_true_iff in H. destruct H as [H1 H].
    apply andb_true_iff in H1. destruct H1 as [_ Hn].
    rewrite (IH true H). now destruct s.
  - apply andb_true_iff in H. destruct H as [Hc H].
    rewrite (IH false H), (alnum_not_space _ (lower_alnum_is_alnum _ Hc)).
    now destruct s.
Qed.

Lemma lstrip_length s : length (lstrip s) <= length s.
Proof. induction s as [|c s IH]; simpl; [lia|]. destruct (is_space c); simpl; lia. Qed.

Lemma endswith_blank_rstrip s : endswith s " " = true -> length (rstrip s) < length s.
Proof.
  unfold endswith, rstrip. change (rev " ") with " "%str.
  rewrite <- (length_rev s). destruct (rev s) as [|c r]; [discriminate|].
  rewrite startswith_blank. intros E. apply blank_eq in E. subst c.
  change (lstrip (" "%char :: r)) with (lstrip r).
  rewrite length_rev. pose proof (lstrip_length r). simpl. lia.
Qed.

(** No blank at the end. *)
Lemma tidy_no_trailing_blank s b :
  tidy_from is_lower_alnum b s = true -> endswith s " " = false.
Proof.
  intros H. destruct (endswith s " ") eqn:E; [|reflexivity].
  apply endswith_blank_rstrip in E. rewrite (rstrip_of_tidy _ _ H) in E. lia.
Qed.

Lemma lower_of_tidy : forall s b, tidy_from is_lower_alnum b s = true -> lower s = s.
Proof.
  induction s as [|c s IH]; intros b H; [reflexivity|].
  cbn [tidy_from] in H. cbn [lower map]. fold (lower s). destruct (is_blank c) eqn:E.
  - apply blank_eq in E. subst c. apply andb_true_iff in H. destruct H as [_ H].
    now rewrite (IH true H).
  - apply andb_true_iff in H. destruct H as [Hc H].
    now rewrite (IH false H), (lower_of_lower_alnum _ Hc).
Qed.

Lemma special_of_good s :
  Forall (fun c => good c = true) s ->
  map (fun c => if negb (is_alnum_ascii c || is_space c) then " "%char else c) s = s.
Proof.
  induction 1 as [|c s Hc Hs IH]; simpl; [reflexivity|]. rewrite IH. f_equal.
  assert (X : is_alnum_ascii c || is_space c = true).
  { revert c Hc. apply (char_implies good (fun c => is_alnum_ascii c || is_space c)).
    vm_compute. reflexivity. }
  now rewrite X.
Qed.

(** A tidy text has no markup, no URL and nothing else for [clean_text] to
    change. *)
Lemma clean_text_of_tidy s : tidy s = true -> clean_text s = s.
Proof.
  intros H. unfold clean_text. destruct (nonempty s) eqn:N;
    [|now apply nonempty_false in N].
  cbv zeta. pose proof (tidy_good _ _ H) as G.
  rewrite (sub_blocked good html_tag_re) by (vm_compute; reflexivity || exact G).
  rewrite (sub_blocked good url_re) by (vm_compute; reflexivity || exact G).
  rewrite (sub_blocked good www_re) by (vm_compute; reflexivity || exact G).
  unfold sub at 2, special_re. rewrite sub_from_class, (special_of_good _ G).
  unfold sub. rewrite (sub_spaces_collapse _ _ _ (le_n _)).
  rewrite (collapse_tidy s true false H) by discriminate.
  unfold strip. rewrite (lstrip_tidy _ H), (rstrip_of_tidy _ _ H).
  exact (lower_of_tidy _ _ H).
Qed.

(** [clean_text] is idempotent. *)
Lemma clean_text_idempotent s : clean_text (clean_text s) = clean_text s.
Proof. apply clean_text_of_tidy, clean_text_tidy. Qed.

(** ** Text without alphanumerics *)

Lemma lstrip_collapse_spaces : forall s b,
  Forall (fun c => is_space c = true) s -> lstrip (collapse_from b s) = [].
Proof.
  induction s as [|c s IH]; intros b H; [reflexivity|].
  inversion H as [|? ? Hc Hs]; subst. cbn [collapse_from]. rewrite Hc.
  destruct b; [now apply IH|]. cbn [lstrip].
  change (is_space " ") with true. cbv iota. now apply IH.
Qed.

Lemma special_of_noise s :
  Forall (fun c => is_alnum_ascii c = false) s ->
  Forall (fun c => is_space c = true)
         (map (fun c => if negb (is_alnum_ascii c || is_space c) then " "%char else c) s).
Proof.
  induction 1 as [|c s Hc Hs IH]; simpl; constructor; auto.
  rewrite Hc. simpl. now destruct (is_space c) eqn:E.
Qed.

Lemma rstrip_nil_spaces : forall s, rstrip s = [] -> Forall (fun c => is_space c = true) s.
Proof.
  induction s as [|c s IH]; intros H; [constructor|].
  rewrite rstrip_cons in H. destruct (rstrip s) as [|d r]; [|discriminate H].
  destruct (is_space c) eqn:E; [|discriminate H]. constructor; auto.
Qed.

Lemma lstrip_nil_spaces : forall s, lstrip s = [] -> Forall (fun c => is_space c = true) s.
Proof.
  induction s as [|c s IH]; intros H; [constructor|].
  cbn [lstrip] in H. destruct (is_space c) eqn:E; [|discriminate H].
  constructor; auto.
Qed.

Lemma lstrip_all_spaces : forall s,
  Forall (fun c => is_space c = true) (lstrip s) -> lstrip s = [].
Proof.
  induction s as [|c s IH]; intros H; [reflexivity|].
  cbn [lstrip] in *. destruct (is_space c) eqn:E; [now apply IH|].
  inversion H; subst. congruence.
Qed.

Lemma collapse_spaces_inv : forall s b,
  Forall (fun c => is_space c = true) (collapse_from b s) ->
  Forall (fun c => is_space c = true) s.
Proof.
  induction s as [|c s IH]; intros b H; [constructor|].
  cbn [collapse_from] in H. destruct (is_space c) eqn:E.
  - constructor; [exact E|]. destruct b; [now apply (IH true)|].
    inversion H; subst. now apply (IH true).
  - inversion H; subst. congruence.
Qed.

Lemma special_noise_inv s :
  Forall (fun c => is_space c = true)
         (map (fun c => if negb (is_alnum_ascii c || is_space c) then " "%char else c) s) ->
  Forall (fun c => is_alnum_ascii c = false) s.
Proof.
  induction s as [|c s IH]; intros H; [constructor|].
  cbn [map] in H. inversion H as [|? ? Hc Hs]; subst. constructor; [|now apply IH].
  destruct (is_alnum_ascii c) eqn:A; [|reflexivity].
  simpl in Hc. rewrite (alnum_not_space _ A) in Hc. discriminate Hc.
Qed.

Lemma lower_nil s : lower s = [] -> s = [].
Proof. now destruct s. Qed.

(** [clean_text] returns the empty string exactly when no letter and no
    digit is left once markup and URLs are removed. *)
Lemma clean_text_empty_iff s :
  clean_text s = [] <-> Forall (fun c => is_alnum_ascii c = false) (markup_removed s).
Proof.
  unfold clean_text. destruct (nonempty s) eqn:N.
  - cbv zeta. fold (markup_removed s).
    unfold sub at 2, special_re. rewrite sub_from_class.
    unfold sub at 1. rewrite (sub_spaces_collapse _ _ _ (le_n _)). unfold strip.
    split.
    + intros H. apply lower_nil, rstrip_nil_spaces, lstrip_all_spaces,
        lstrip_nil_spaces, collapse_spaces_inv in H.
      now apply special_noise_inv.
    + intros H. rewrite lstrip_collapse_spaces by (now apply special_of_noise).
      reflexivity.
  - apply nonempty_false in N. subst s. split; [constructor | reflexivity].
Qed.

(** A text with no letter and no digit normalizes to the empty string. *)
Lemma clean_text_of_noise s :
  Forall (fun c => is_alnum_ascii c = false) s -> clean_text s = [].
Proof.
  intros H. apply clean_text_empty_iff. unfold markup_removed.
  repeat apply sub_Forall; auto.
Qed.

End TidyFacts.
Import TidyFacts.

(** C7. [clean_text] is a total function of its text, and what it returns
    holds only lowercase letters, digits and single blanks, with no blank at
    either end; the empty text, and any text that has no letter and no
    digit, give the empty string.  More precisely the result is empty
    exactly when nothing but noise is left once markup and URLs are
    removed. *)
Theorem clean_text_normal_form (s : str) :
  Forall (fun c => is_lower_ascii c = true \/ is_digit c = true \/ c = " "%char)
         (clean_text s)
  /\ contains "  " (clean_text s) = false
  /\ startswith (clean_text s) " " = false
  /\ endswith (clean_text s) " " = false
  /\ clean_text "" = ""
  /\ (Forall (fun c => is_alnum_ascii c = false) s -> clean_text s = "")
  /\ (clean_text s = ""
      <-> Forall (fun c => is_alnum_ascii c = false) (markup_removed s)).
Proof.
  pose proof (clean_text_tidy s) as T. unfold tidy in T.
  split.
  { apply tidy_chars in T. eapply Forall_impl; [|exact T].
    intros c [Hc|Hc]; [|tauto]. unfold is_lower_alnum in Hc.
    apply orb_true_iff in Hc. tauto. }
  split; [exact (tidy_no_double_blank _ _ _ T)|].
  split; [exact (tidy_no_leading_blank _ _ T)|].
  split; [exact (tidy_no_trailing_blank _ _ T)|].
  split; [reflexivity|].
  split; [apply clean_text_of_noise | apply clean_text_empty_iff].
Qed.

Lemma clean_text_normal_form_witness :
  Forall (fun c => is_alnum_ascii c = false) "?! <>" /\ clean_text "?! <>" = "".
Proof.
  assert (F : Forall (fun c => is_alnum_ascii c = false) "?! <>")
    by (repeat constructor).
  split; [exact F|].
  exact (proj1 (proj2 (proj2 (proj2 (proj2 (proj2 (clean_text_normal_form "?! <>")))))) F).
Defined.

(** Markup and URLs are noise too. *)
Example clean_text_markup_only :
  clean_text "<b> </b> https://example.org/a?b=1 www.example.org !" = "".
Proof. vm_compute. reflexivity. Qed.

Example clean_text_sample :
  clean_text "  Hello, <b>World</b>!  See https://example.org/a?b=1 (NOW) "
  = "hello world see now".
Proof. vm_compute. reflexivity. Qed.

(* ================================================================== *)
(** * The ranked list of the Discover analyzer (C3) *)
(* ================================================================== *)

Section DiscoverRanking.

Variable strptime : str -> str -> option datetime.

Lemma discover_lines_collected : forall lines items,
  Forall collected items -> Forall collected (discover_lines lines items).
Proof.
  induction lines as [|ln lines IH]; intros items H; [exact H|].
  cbn [discover_lines]. destruct (startswith (lower ln) _); [exact H|]. cbv zeta.
  destruct (search card_re _); [now apply IH|].
  destruct (nonempty (clean_text _)) eqn:N; [|now apply IH].
  apply IH, Forall_app. split; [exact H|]. constructor; [|constructor].
  split; [apply clean_text_tidy | now apply nonempty_true].
Qed.

Lemma discover_div_collected st div :
  Forall collected (fst st) -> Forall collected (fst (discover_div strptime st div)).
Proof.
  destruct st as [items times]. unfold discover_div. cbv zeta.
  destruct (negb (nonempty _)); [auto|].
  destruct (filter nonempty _) as [|line0 lines]; [auto|].
  destruct (negb _); [auto|]. cbn [fst]. apply discover_lines_collected.
Qed.

Lemma discover_loop_collected doc : Forall collected (fst (discover_loop strptime doc)).
Proof.
  unfold discover_loop.
  assert (G : forall st, Forall collected (fst st) ->
                         Forall collected (fst (fold_left (discover_div strptime) doc st))).
  { induction doc as [|div doc IH]; intros st H; [exact H|].
    simpl. apply IH. now apply discover_div_collected. }
  apply G. constructor.
Qed.

Lemma normalize_collected items :
  Forall collected items -> filter nonempty (map clean_text items) = items.
Proof.
  induction 1 as [|x items [Hx Nx] _ IH]; [reflexivity|].
  cbn [map filter]. rewrite (clean_text_of_tidy _ Hx), IH.
  apply nonempty_true in Nx. now rewrite Nx.
Qed.

Lemma discover_top5_of doc :
  top5_of (analyze_discover_file strptime doc)
  = match fst (discover_loop strptime doc) with
    | [] => no_data
    | _ => most_common 5 (Counter (fst (discover_loop strptime doc)))
    end.
Proof.
  unfold analyze_discover_file. now destruct (discover_loop strptime doc) as [items times].
Qed.

(** C3, amended.  The ranked list of the Discover analyzer is the result of
    normalizing its collected items, dropping the empty ones, counting and
    taking the top five, with the sentinel for no items: the path of the
    other analyzers without the noise-word filter.  It is [top5_from_list]
    of the collected items when that filter changes none of them. *)
Theorem discover_ranking_skips_noise_filter (doc : document) :
  top5_of (analyze_discover_file strptime doc)
  = Spec.top_five_without_noise_filter (fst (discover_loop strptime doc))
  /\ (Forall (fun x => clean_top5_item x = x) (fst (discover_loop strptime doc)) ->
      top5_of (analyze_discover_file strptime doc)
      = top5_from_list (fst (discover_loop strptime doc))).
Proof.
  pose proof (discover_loop_collected doc) as C.
  rewrite discover_top5_of. unfold Spec.top_five_without_noise_filter.
  rewrite (normalize_collected _ C). split; [now destruct (fst _)|].
  intros F. rewrite top5_from_list_unfold. unfold Spec.normalized_items.
  replace (filter nonempty (map (fun x => clean_top5_item (clean_text x))
                                (fst (discover_loop strptime doc))))
    with (fst (discover_loop strptime doc)); [now destruct (fst _)|].
  revert C F. generalize (fst (discover_loop strptime doc)) as items.
  induction items as [|x items IH]; intros C F; [reflexivity|].
  inversion C as [|? ? [Hx Nx] C']; subst. inversion F as [|? ? Fx F']; subst.
  cbn [map filter]. rewrite (clean_text_of_tidy _ Hx), Fx.
  apply nonempty_true in Nx. rewrite Nx. f_equal. now apply IH.
Qed.

End DiscoverRanking.

(** C3 as stated fails: the Discover item "Go to it" is ranked as it is,
    while [top5_from_list] of the collected items filters each of its
    two-letter words out and returns the sentinel. *)
Lemma discover_ranking_keeps_noise_words :
  top5_of (analyze_discover_file no_strptime [discover_block]) = [("go to it", 1)]
  /\ top5_from_list (fst (discover_loop no_strptime [discover_block]))
     = [("No data found", 0)].
Proof. vm_compute. split; reflexivity. Qed.

Lemma discover_ranking_skips_noise_filter_witness :
  Forall (fun x => clean_top5_item x = x)
         (fst (discover_loop no_strptime
                 [{| div_strings := ["Discover"; "Details"; "Running shoes"];
                     div_a := None; div_span := None |}]))
  /\ top5_of (analyze_discover_file no_strptime
                [{| div_strings := ["Discover"; "Details"; "Running shoes"];
                    div_a := None; div_span := None |}])
     = top5_from_list
         (fst (discover_loop no_strptime
                 [{| div_strings := ["Discover"; "Details"; "Running shoes"];
                     div_a := None; div_span := None |}])).
Proof.
  assert (F : Forall (fun x => clean_top5_item x = x)
                (fst (discover_loop no_strptime
                        [{| div_strings := ["Discover"; "Details"; "Running shoes"];
                            div_a := None; div_span := None |}])))
    by (repeat constructor).
  split; [exact F|].
  exact (proj2 (discover_ranking_skips_noise_filter no_strptime _) F).
Defined.

(* ================================================================== *)
(** * The time fragment of a search term (C2) *)
(* ================================================================== *)

(** [time_re] asks for a colon, and [clean_text] leaves none: the last
    substitution of [search_term] never changes the term. *)
Lemma search_term_time_strip_idle (phrase text : str) :
  search_term phrase text = sub connector_re "" (clean_text (after_phrase phrase text)).
Proof.
  unfold search_term. cbv zeta. apply (sub_blocked good).
  - vm_compute. reflexivity.
  - apply sub_Forall; [constructor|].
    apply (tidy_good _ true). apply clean_text_tidy.
Qed.

(* ================================================================== *)
(** * The risk score (C5, C6) *)
(* ================================================================== *)

Module RiskFacts.

Import Risk.
Local Open Scope R_scope.

(** ** The percent *)

Lemma Int_part_bounds (x : R) (lo hi : Z) :
  IZR lo <= x -> x <= IZR hi -> (lo <= Int_part x <= hi)%Z.
Proof.
  intros L H. destruct (base_Int_part x) as [B1 B2]. split.
  - assert (X : IZR (lo - 1) < IZR (Int_part x)) by (rewrite minus_IZR; lra).
    apply lt_IZR in X. lia.
  - apply le_IZR. lra.
Qed.

Lemma clamped_value (y : R) : 0 <= py_max 0 (py_min 100 y) <= 100.
Proof.
  unfold py_max, py_min. destruct (Rlt_dec y 100); destruct (Rlt_dec 0 _); lra.
Qed.

(** The percent is an integer between 0 and 100. *)
Lemma risk_percent_range (total : R) : (0 <= risk_percent total <= 100)%Z.
Proof.
  unfold risk_percent, py_int. pose proof (clamped_value (total / 15 * 100)) as C.
  destruct (Rle_dec 0 _) as [_|N]; [|lra].
  apply Int_part_bounds; simpl; lra.
Qed.

(** The percent of the code is the percent of the specification. *)
Lemma risk_percent_spec (total : R) : risk_percent total = Spec.percent total.
Proof.
  unfold risk_percent, Spec.percent, Spec.clamp. f_equal.
  unfold py_max, py_min, Rmax, Rmin.
  destruct (Rlt_dec (total / 15 * 100) 100); destruct (Rle_dec 1 (total / 15));
    try lra;
    match goal with
    | |- context [Rlt_dec 0 ?a] => destruct (Rlt_dec 0 a)
    end;
    match goal with
    | |- context [Rle_dec 0 ?a] => destruct (Rle_dec 0 a)
    end; lra.
Qed.

(** ** Overflow of [math.exp] *)

Lemma exp_1_ge_2 : 2 <= exp 1.
Proof. pose proof (exp_ineq1 1). lra. Qed.

Lemma exp_nat_ge_pow2 (n : nat) : 2 ^ n <= exp (INR n).
Proof.
  induction n as [|n IH].
  - simpl. rewrite exp_0. lra.
  - rewrite S_INR, exp_plus. simpl pow. pose proof exp_1_ge_2.
    assert (0 < 2 ^ n) by (apply pow_lt; lra).
    pose proof (exp_pos (INR n)). nra.
Qed.

Lemma DBL_MAX_lt_exp (x : R) : 1024 <= x -> DBL_MAX < exp x.
Proof.
  intros H. apply Rlt_le_trans with (exp 1024).
  - apply Rlt_le_trans with (2 ^ 1024).
    + unfold DBL_MAX. rewrite pow_IZR. apply IZR_lt. vm_compute. reflexivity.
    + replace 1024 with (INR 1024) by (rewrite INR_IZR_INZ; reflexivity).
      apply exp_nat_ge_pow2.
  - destruct H as [H|H]; [left; now apply exp_increasing | right; now rewrite H].
Qed.

Lemma math_exp_overflow (x : R) : 1024 <= x -> math_exp x = Raise OverflowError.
Proof.
  intros H. unfold math_exp. destruct (Rle_dec (exp x) DBL_MAX) as [L|_]; [|reflexivity].
  pose proof (DBL_MAX_lt_exp x H). lra.
Qed.

Lemma math_exp_in_range (x : R) : x <= 0 -> math_exp x = Ok (exp x).
Proof.
  intros H. unfold math_exp. destruct (Rle_dec (exp x) DBL_MAX) as [_|N]; [reflexivity|].
  exfalso. apply N. apply Rle_trans with 1.
  - rewrite <- exp_0. destruct H as [H|H]; [left; now apply exp_increasing | right; now rewrite H].
  - unfold DBL_MAX. apply IZR_le. vm_compute. discriminate.
Qed.

Lemma days_between_future (now : datetime) (n : Z) :
  days_between now (now + n * microseconds_per_day)%Z = (- n)%Z.
Proof.
  unfold days_between. replace (now - (now + n * microseconds_per_day))%Z
    with ((- n) * microseconds_per_day)%Z by lia.
  apply Z.div_mul. discriminate.
Qed.

(** C5. On a timestamp ten thousand days after the current time
    [calculate_risk] returns no assessment: [math.exp(-days_ago / 7)] is
    [math.exp(10000 / 7)], which raises [OverflowError]. *)
Theorem calculate_risk_overflows_on_future_timestamp
    (now : datetime) (categories : dict) :
  calculate_risk now categories [(now + 10000 * microseconds_per_day)%Z]
  = Raise OverflowError.
Proof.
  unfold calculate_risk, total_risk. cbn [recent_loop].
  rewrite days_between_future, math_exp_overflow; [reflexivity|].
  rewrite Z.opp_involutive. lra.
Qed.

(** Whenever [calculate_risk] returns an assessment, its percent is between
    0 and 100 and is the percent of the specification for the total score. *)
Lemma calculate_risk_percent now categories recent_activities a :
  calculate_risk now categories recent_activities = Ok a ->
  (0 <= percent_of a <= 100)%Z
  /\ exists total,
       total_risk now categories recent_activities = Ok total
       /\ percent_of a = Spec.percent total.
Proof.
  unfold calculate_risk.
  destruct (total_risk now categories recent_activities) as [total|e]; [|discriminate].
  intros E. injection E as <-.
  assert (P : percent_of (assess total) = risk_percent total).
  { unfold assess. destruct (Rle_dec total 3); [|destruct (Rle_dec total 10)]; reflexivity. }
  rewrite P. split; [apply risk_percent_range|].
  exists total. split; [reflexivity | apply risk_percent_spec].
Qed.

Lemma recent_loop_past now : forall recent_activities recent_risk,
  Forall (fun act_time => (act_time <= now)%Z) recent_activities ->
  exists r, recent_loop now recent_activities recent_risk = Ok r.
Proof.
  induction recent_activities as [|t l IH]; intros r H; simpl; [eauto|].
  inversion H as [|? ? Ht Hl]; subst.
  rewrite math_exp_in_range; [now apply IH|].
  assert (D : (0 <= days_between now t)%Z)
    by (unfold days_between; apply Z.div_pos; [lia | reflexivity]).
  apply IZR_le in D. rewrite opp_IZR. lra.
Qed.

(** [calculate_risk] returns an assessment when no timestamp lies in the
    future. *)
Lemma calculate_risk_returns now categories recent_activities :
  Forall (fun act_time => (act_time <= now)%Z) recent_activities ->
  exists a, calculate_risk now categories recent_activities = Ok a.
Proof.
  intros H. unfold calculate_risk, total_risk.
  destruct (recent_loop_past now recent_activities 0 H) as [r E]. rewrite E. eauto.
Qed.

Lemma calculate_risk_percent_witness :
  calculate_risk 0%Z generic_categories []
  = Ok (assess (base_risk generic_categories + 0))
  /\ ((0 <= percent_of (assess (base_risk generic_categories + 0)) <= 100)%Z
      /\ exists total,
           total_risk 0%Z generic_categories [] = Ok total
           /\ percent_of (assess (base_risk generic_categories + 0)) = Spec.percent total).
Proof.
  split; [reflexivity|].
  exact (calculate_risk_percent 0%Z generic_categories [] _ eq_refl).
Defined.

Lemma calculate_risk_returns_witness :
  Forall (fun act_time => (act_time <= 0)%Z) [(- 86400000000)%Z]
  /\ exists a, calculate_risk 0%Z generic_categories [(- 86400000000)%Z] = Ok a.
Proof.
  assert (F : Forall (fun act_time => (act_time <= 0)%Z) [(- 86400000000)%Z])
    by (repeat constructor; discriminate).
  split; [exact F|].
  exact (calculate_risk_returns 0%Z generic_categories _ F).
Defined.

(** ** The tier *)

(** C6. The tier is chosen from the total score: at most 3 is "Low", above
    3 and at most 10 is "Medium", above 10 is "High"; the color, the
    headline and the suggestions of each tier are the literal texts of
    section 6 of the specification, and the suggestions are three. *)
Theorem tier_selected_by_total_with_literal_text
    (now : datetime) (categories : dict) (recent_activities : list datetime)
    (total : R) :
  total_risk now categories recent_activities = Ok total ->
  (total <= 3 ->
   calculate_risk now categories recent_activities
   = Ok (Spec.bundle "Low" Spec.low_text (risk_percent total)))
  /\ (3 < total <= 10 ->
      calculate_risk now categories recent_activities
      = Ok (Spec.bundle "Medium" Spec.medium_text (risk_percent total)))
  /\ (10 < total ->
      calculate_risk now categories recent_activities
      = Ok (Spec.bundle "High" Spec.high_text (risk_percent total)))
  /\ (exists a,
        calculate_risk now categories recent_activities = Ok a
        /\ length (suggestions_of a) = 3%nat).
Proof.
  intros E. unfold calculate_risk. rewrite E. unfold assess.
  repeat split; try (eexists; split; [reflexivity|]); try intros H;
    destruct (Rle_dec total 3); try lra;
    destruct (Rle_dec total 10); try lra; reflexivity.
Qed.

Lemma tier_selected_by_total_with_literal_text_witness :
  total_risk 0%Z [("Discover", 0)]%nat [] = Ok (base_risk [("Discover", 0)]%nat + 0)
  /\ ((base_risk [("Discover", 0)]%nat + 0 <= 3 ->
       calculate_risk 0%Z [("Discover", 0)]%nat []
       = Ok (Spec.bundle "Low" Spec.low_text (risk_percent (base_risk [("Discover", 0)]%nat + 0))))
      /\ (3 < base_risk [("Discover", 0)]%nat + 0 <= 10 ->
          calculate_risk 0%Z [("Discover", 0)]%nat []
          = Ok (Spec.bundle "Medium" Spec.medium_text
                       (risk_percent (base_risk [("Discover", 0)]%nat + 0))))
      /\ (10 < base_risk [("Discover", 0)]%nat + 0 ->
          calculate_risk 0%Z [("Discover", 0)]%nat []
          = Ok (Spec.bundle "High" Spec.high_text
                       (risk_percent (base_risk [("Discover", 0)]%nat + 0))))
      /\ (exists a,
            calculate_risk 0%Z [("Discover", 0)]%nat [] = Ok a
            /\ length (suggestions_of a) = 3%nat)).
Proof.
  split; [reflexivity|].
  apply (tier_selected_by_total_with_literal_text 0%Z [("Discover", 0)]%nat []
           (base_risk [("Discover", 0)]%nat + 0)).
  reflexivity.
Defined.

(** ** The scenarios of the specification *)

Lemma py_int_IZR (z : Z) : py_int (IZR z) = z.
Proof.
  unfold py_int. destruct (Rle_dec 0 (IZR z)) as [H|H].
  - assert (X : (z <= Int_part (IZR z) <= z)%Z) by (apply Int_part_bounds; lra).
    lia.
  - assert (X : (- z <= Int_part (- IZR z) <= - z)%Z)
      by (apply Int_part_bounds; rewrite opp_IZR; lra).
    lia.
Qed.

Lemma base_risk_all_zero : base_risk generic_categories = 0.
Proof.
  unfold base_risk, generic_categories, math_log. cbn [fold_left Z.of_nat Z.add].
  rewrite ln_1. lra.
Qed.

(** Section 8: no activity and no timestamp give the tier "Low" and the
    percent 0. *)
Example calculate_risk_no_activity (now : datetime) :
  calculate_risk now generic_categories []
  = Ok (Spec.bundle "Low" Spec.low_text 0%Z).
Proof.
  unfold calculate_risk, total_risk. cbn [recent_loop].
  rewrite base_risk_all_zero. replace (0 + 0) with 0 by lra.
  unfold assess. destruct (Rle_dec 0 3) as [_|N]; [|lra].
  replace (risk_percent 0) with 0%Z; [reflexivity|].
  unfold risk_percent, py_max, py_min.
  replace (0 / 15 * 100) with 0 by lra.
  destruct (Rlt_dec 0 100) as [_|N]; [|lra].
  destruct (Rlt_dec 0 0) as [N|_]; [lra|].
  symmetry. apply (py_int_IZR 0).
Qed.

Lemma ln_10001_ge_5 : 5 <= ln 10001.
Proof.
  rewrite <- (ln_exp 5). left. apply ln_increasing; [apply exp_pos|].
  replace 5 with (1 + (1 + (1 + (1 + 1)))) by lra. rewrite !exp_plus.
  pose proof exp_le_3 as U. pose proof (exp_pos 1) as P. set (e := exp 1) in *.
  assert (E2 : 0 < e * e <= 9) by nra.
  assert (E3 : 0 < e * (e * e) <= 27) by nra.
  assert (E4 : 0 < e * (e * (e * e)) <= 81) by nra.
  nra.
Qed.

(** Section 8: ten thousand Maps records, with no timestamp, give the tier
    "High" and the percent 100. *)
Example calculate_risk_many_maps (now : datetime) :
  calculate_risk now
    [("Search", 0); ("YouTube", 0); ("Maps", 10000); ("Shopping", 0);
     ("Discover", 0); ("Other", 0)]%nat []
  = Ok (Spec.bundle "High" Spec.high_text 100%Z).
Proof.
  unfold calculate_risk, total_risk. cbn [recent_loop].
  set (total := base_risk _ + 0).
  assert (T : 15 <= total).
  { unfold total, base_risk, math_log. cbn [fold_left].
    change (1 + Z.of_nat 10000)%Z with 10001%Z.
    change (1 + Z.of_nat 0)%Z with 1%Z.
    rewrite ln_1. pose proof ln_10001_ge_5.
    change (weights_get weights "Maps") with 3%Z. lra. }
  unfold assess. destruct (Rle_dec total 3); [lra|].
  destruct (Rle_dec total 10); [lra|].
  replace (risk_percent total) with 100%Z; [reflexivity|].
  unfold risk_percent, py_max, py_min.
  destruct (Rlt_dec (total / 15 * 100) 100) as [L|_]; [lra|].
  destruct (Rlt_dec 0 100) as [_|N]; [|lra].
  symmetry. apply (py_int_IZR 100).
Qed.

End RiskFacts.

(* ================================================================== *)
(** * The ranking of [top5_from_list] *)
(* ================================================================== *)

Section RankingFacts.

Lemma count_of_counter_add x c y :
  count_of (counter_add x c) y = count_of c y + (if str_eqb y x then 1 else 0).
Proof.
  induction c as [|[z n] c IH].
  - unfold count_of. simpl. now destruct (str_eqb y x).
  - unfold count_of in *. simpl.
    destruct (str_eqb x z) eqn:Exz; simpl; destruct (str_eqb y z) eqn:Eyz.
    + apply str_eqb_eq in Exz, Eyz. subst. rewrite str_eqb_refl. lia.
    + destruct (str_eqb y x) eqn:Eyx; [|lia].
      apply str_eqb_eq in Exz, Eyx. subst. rewrite str_eqb_refl in Eyz. discriminate.
    + destruct (str_eqb y x) eqn:Eyx; [|lia].
      apply str_eqb_eq in Eyz, Eyx. subst. rewrite str_eqb_refl in Exz. discriminate.
    + exact IH.
Qed.

Lemma occurrences_cons x l y :
  occurrences (x :: l) y = occurrences l y + (if str_eqb y x then 1 else 0).
Proof.
  unfold occurrences. simpl. destruct (list_eq_dec ascii_dec x y) as [E|E].
  - subst. rewrite str_eqb_refl. lia.
  - destruct (str_eqb y x) eqn:E'; [|lia]. apply str_eqb_eq in E'. congruence.
Qed.

(** A [Counter] holds for each label the number of its occurrences. *)
Lemma count_of_Counter l y : count_of (Counter l) y = occurrences l y.
Proof.
  unfold Counter.
  assert (G : forall c, count_of (fold_left (fun c x => counter_add x c) l c) y
                        = occurrences l y + count_of c y).
  { induction l as [|x l IH]; intros c; [reflexivity|].
    simpl fold_left. rewrite IH, count_of_counter_add, occurrences_cons. lia. }
  rewrite G. unfold count_of. simpl. lia.
Qed.

Lemma keys_counter_add x c :
  keys (counter_add x c) = if existsb (str_eqb x) (keys c) then keys c else keys c ++ [x].
Proof.
  induction c as [|[z n] c IH]; [reflexivity|]. simpl.
  destruct (str_eqb x z); simpl; [reflexivity|]. rewrite IH.
  now destruct (existsb (str_eqb x) (keys c)).
Qed.

Lemma Counter_snoc l x : Counter (l ++ [x]) = counter_add x (Counter l).
Proof. unfold Counter. now rewrite fold_left_app. Qed.

Lemma existsb_filter_other x a l :
  str_eqb x a = false ->
  existsb (str_eqb x) (filter (fun y => negb (str_eqb y a)) l) = existsb (str_eqb x) l.
Proof.
  intros E. induction l as [|y l IH]; [reflexivity|]. simpl.
  destruct (str_eqb y a) eqn:Eya; simpl.
  - rewrite IH. destruct (str_eqb x y) eqn:Exy; [|reflexivity].
    apply str_eqb_eq in Exy, Eya. subst. rewrite str_eqb_refl in E. discriminate.
  - now rewrite IH.
Qed.

Lemma first_seen_snoc l x :
  first_seen (l ++ [x])
  = if existsb (str_eqb x) (first_seen l) then first_seen l else first_seen l ++ [x].
Proof.
  induction l as [|a l IH]; [reflexivity|].
  simpl app. cbn [first_seen]. rewrite IH. cbn [existsb].
  destruct (str_eqb x a) eqn:E.
  - apply str_eqb_eq in E. subst a. simpl orb.
    destruct (existsb (str_eqb x) (first_seen l)); [reflexivity|].
    rewrite filter_app. simpl. rewrite str_eqb_refl. simpl. now rewrite app_nil_r.
  - simpl orb. rewrite (existsb_filter_other _ _ _ E).
    destruct (existsb (str_eqb x) (first_seen l)); [reflexivity|].
    rewrite filter_app. simpl. now rewrite E.
Qed.

(** The labels of a [Counter] stand in the order of their first occurrence. *)
Lemma keys_Counter l : keys (Counter l) = first_seen l.
Proof.
  induction l as [|x l IH] using rev_ind; [reflexivity|].
  now rewrite Counter_snoc, keys_counter_add, first_seen_snoc, IH.
Qed.

Lemma first_seen_In l x : In x (first_seen l) <-> In x l.
Proof.
  induction l as [|a l IH]; [reflexivity|]. cbn [first_seen]. simpl.
  rewrite filter_In, IH. split.
  - intros [H|[H _]]; auto.
  - intros [H|H]; [now left|].
    destruct (str_eqb x a) eqn:E; [left; symmetry; now apply str_eqb_eq|].
    right. split; [exact H | reflexivity].
Qed.

Lemma first_seen_NoDup l : NoDup (first_seen l).
Proof.
  induction l as [|a l IH]; [constructor|]. cbn [first_seen]. constructor.
  - rewrite filter_In. intros [_ H]. now rewrite str_eqb_refl in H.
  - now apply NoDup_filter.
Qed.

(** A dictionary with distinct keys lists, key by key, what [count_of] reads. *)
Lemma entries_of_counts (c : counter) (f : str -> nat) :
  NoDup (keys c) -> (forall y, In y (keys c) -> count_of c y = f y) ->
  c = map (fun y => (y, f y)) (keys c).
Proof.
  induction c as [|[k v] c IH]; intros N H; [reflexivity|].
  inversion N as [|? ? Nk Nc]; subst. simpl. f_equal.
  - f_equal. rewrite <- (H k) by (now left). unfold count_of. simpl.
    now rewrite str_eqb_refl.
  - apply IH; [exact Nc|]. intros y Hy. rewrite <- (H y) by (now right).
    unfold count_of. simpl. destruct (str_eqb y k) eqn:E; [|reflexivity].
    apply str_eqb_eq in E. subst y. contradiction.
Qed.

(** [Counter(l)] in full: each distinct label once, in the order of first
    occurrence, with the number of its occurrences. *)
Lemma Counter_entries l :
  Counter l = map (fun x => (x, occurrences l x)) (first_seen l).
Proof.
  rewrite <- keys_Counter. apply entries_of_counts.
  - rewrite keys_Counter. apply first_seen_NoDup.
  - intros y _. apply count_of_Counter.
Qed.

Lemma insert_by_count_perm e l : Permutation (insert_by_count e l) (e :: l).
Proof.
  induction l as [|e' l IH]; simpl; [reflexivity|].
  destruct (snd e' <=? snd e); [reflexivity|].
  rewrite IH. apply perm_swap.
Qed.

Lemma sort_by_count_perm c : Permutation (sort_by_count c) c.
Proof.
  induction c as [|e c IH]; simpl; [reflexivity|].
  rewrite insert_by_count_perm. now constructor.
Qed.

Lemma insert_by_count_sorted e l : descending l -> descending (insert_by_count e l).
Proof.
  unfold descending. induction 1 as [|e' l Hl IH Hd]; simpl.
  - repeat constructor.
  - destruct (snd e' <=? snd e) eqn:E.
    + apply Nat.leb_le in E. repeat constructor; auto.
    + apply Nat.leb_gt in E. constructor; [exact IH|].
      destruct l as [|e'' l]; simpl.
      * constructor. lia.
      * inversion Hd; subst. destruct (snd e'' <=? snd e); constructor; auto. lia.
Qed.

Lemma sort_by_count_sorted c : descending (sort_by_count c).
Proof.
  induction c as [|e c IH]; simpl; [constructor|]. now apply insert_by_count_sorted.
Qed.

Lemma firstn_descending n : forall c, descending c -> descending (firstn n c).
Proof.
  unfold descending. induction n as [|n IH]; intros c H; [constructor|].
  destruct c as [|e c]; [constructor|]. simpl. inversion H as [|? ? Hc Hd]; subst.
  constructor; [now apply IH|].
  destruct c as [|e' c]; [destruct n; constructor|]. destruct n; [constructor|].
  simpl. inversion Hd; subst. now constructor.
Qed.


(** The sort is stable: entries of equal count keep their order. *)
Lemma with_count_insert n e l :
  with_count n (insert_by_count e l)
  = if snd e =? n then e :: with_count n l else with_count n l.
Proof.
  unfold with_count. induction l as [|e' l IH]; simpl; [reflexivity|].
  destruct (snd e' <=? snd e) eqn:E; simpl; [reflexivity|].
  rewrite IH. apply Nat.leb_gt in E.
  destruct (snd e =? n) eqn:En; [|reflexivity].
  apply Nat.eqb_eq in En. destruct (snd e' =? n) eqn:En'; [|reflexivity].
  apply Nat.eqb_eq in En'. lia.
Qed.

Lemma with_count_sort n c : with_count n (sort_by_count c) = with_count n c.
Proof.
  induction c as [|e c IH]; [reflexivity|].
  simpl sort_by_count. rewrite with_count_insert, IH. unfold with_count. simpl.
  now destruct (snd e =? n).
Qed.

Lemma with_count_most_common n k c :
  exists rest, with_count n c = with_count n (most_common k c) ++ rest.
Proof.
  exists (with_count n (skipn k (sort_by_count c))).
  unfold most_common. rewrite <- with_count_sort.
  unfold with_count. now rewrite <- filter_app, firstn_skipn.
Qed.

End RankingFacts.

Section RankingTheorems.

Variable strptime : str -> str -> option datetime.

Lemma most_common_descending n c : descending (most_common n c).
Proof. unfold most_common. apply firstn_descending, sort_by_count_sorted. Qed.

Lemma no_data_descending : descending no_data.
Proof. repeat constructor. Qed.

Lemma top5_from_list_descending items : descending (top5_from_list items).
Proof.
  rewrite top5_from_list_unfold. destruct (Spec.normalized_items items).
  - apply no_data_descending.
  - apply most_common_descending.
Qed.

Lemma generic_top5_of doc :
  top5_of (analyze_generic_file strptime doc)
  = top5_from_list (terms_of (generic_loop strptime doc)).
Proof.
  unfold analyze_generic_file. now destruct (generic_loop strptime doc) as [[c i] t].
Qed.

Lemma search_top5_of doc :
  top5_of (analyze_search_file strptime doc)
  = top5_from_list (terms_of (search_loop strptime doc)).
Proof.
  unfold analyze_search_file. now destruct (search_loop strptime doc) as [[c i] t].
Qed.

Lemma youtube_top5_of doc :
  top5_of (analyze_youtube_file strptime doc)
  = top5_from_list (snd (fst (youtube_loop strptime doc))
                    ++ fst (fst (youtube_loop strptime doc))).
Proof.
  unfold analyze_youtube_file. now destruct (youtube_loop strptime doc) as [[t q] ts].
Qed.

Lemma run_analyzer_descending (a : analyzer) (doc : document) :
  descending (top5_of (run_analyzer strptime a doc)).
Proof.
  destruct a; simpl run_analyzer.
  - rewrite search_top5_of. apply top5_from_list_descending.
  - rewrite youtube_top5_of. apply top5_from_list_descending.
  - rewrite discover_top5_of. destruct (fst (discover_loop strptime doc)).
    + apply no_data_descending.
    + apply most_common_descending.
  - rewrite generic_top5_of. apply top5_from_list_descending.
Qed.

(** Whatever analyzer runs, the ranked list it returns is in non-increasing
    order of count. *)
Theorem ranking_descending (a : analyzer) (doc : document) :
  descending (top5_of (run_analyzer strptime a doc)).
Proof. apply run_analyzer_descending. Qed.

End RankingTheorems.

Lemma In_most_common e n c : In e (most_common n c) -> In e c.
Proof.
  unfold most_common. intros H. apply (Permutation_in e (sort_by_count_perm c)).
  rewrite <- (firstn_skipn n (sort_by_count c)). apply in_or_app. now left.
Qed.

Lemma In_Counter e l :
  In e (Counter l) <-> In (fst e) l /\ snd e = occurrences l (fst e).
Proof.
  rewrite Counter_entries, in_map_iff. split.
  - intros (x & <- & H). simpl. split; [now apply first_seen_In | reflexivity].
  - intros [H E]. exists (fst e). split.
    + destruct e as [x n]. simpl in *. now subst n.
    + now apply first_seen_In.
Qed.

Lemma most_common_NoDup n l : NoDup (keys (most_common n (Counter l))).
Proof.
  unfold most_common, keys. rewrite <- firstn_map.
  apply (NoDup_app_remove_r _ (skipn n (map fst (sort_by_count (Counter l))))).
  rewrite firstn_skipn.
  apply (Permutation_NoDup (l := keys (Counter l))).
  - unfold keys. apply Permutation_map. symmetry. apply sort_by_count_perm.
  - rewrite keys_Counter. apply first_seen_NoDup.
Qed.

(** When some item survives normalization, the labels of the ranking are
    pairwise distinct normalized items, each with the number of its
    occurrences among the normalized items. *)
Theorem top5_entries_are_frequencies (items : list str) :
  Spec.normalized_items items <> [] ->
  NoDup (keys (top5_from_list items))
  /\ forall label n,
       In (label, n) (top5_from_list items) ->
       In label (Spec.normalized_items items)
       /\ n = occurrences (Spec.normalized_items items) label.
Proof.
  intros N. rewrite top5_from_list_unfold.
  destruct (Spec.normalized_items items) as [|x l] eqn:E; [congruence|].
  split; [apply most_common_NoDup|].
  intros label n H. apply In_most_common, In_Counter in H. exact H.
Qed.

Lemma top5_entries_are_frequencies_witness :
  Spec.normalized_items ["cats"; "Dogs!"; "cats"] <> []
  /\ (NoDup (keys (top5_from_list ["cats"; "Dogs!"; "cats"]))
      /\ forall label n,
           In (label, n) (top5_from_list ["cats"; "Dogs!"; "cats"]) ->
           In label (Spec.normalized_items ["cats"; "Dogs!"; "cats"])
           /\ n = occurrences (Spec.normalized_items ["cats"; "Dogs!"; "cats"]) label).
Proof.
  assert (N : Spec.normalized_items ["cats"; "Dogs!"; "cats"] <> [])
    by (vm_compute; discriminate).
  split; [exact N|].
  exact (top5_entries_are_frequencies ["cats"; "Dogs!"; "cats"] N).
Defined.



Lemma filter_map_swap {A B : Type} (p : B -> bool) (g : A -> B) (l : list A) :
  filter p (map g l) = map g (filter (fun x => p (g x)) l).
Proof.
  induction l as [|x l IH]; simpl; [reflexivity|].
  destruct (p (g x)); simpl; now rewrite IH.
Qed.

(** Ties keep the order of first occurrence: the labels that the ranking
    holds with the count [n] are, in this order, the first of the labels
    that occur [n] times, taken in the order in which they were first seen. *)
Theorem top5_ties_in_first_seen_order (items : list str) (n : nat) :
  Spec.normalized_items items <> [] ->
  exists rest,
    filter (fun x => occurrences (Spec.normalized_items items) x =? n)
           (first_seen (Spec.normalized_items items))
    = keys (with_count n (top5_from_list items)) ++ rest.
Proof.
  intros N. rewrite top5_from_list_unfold.
  destruct (Spec.normalized_items items) as [|x l] eqn:E; [congruence|].
  set (L := x :: l).
  destruct (with_count_most_common n 5 (Counter L)) as [rest R].
  exists (keys rest). unfold keys. rewrite <- map_app, <- R.
  rewrite Counter_entries. unfold with_count. rewrite filter_map_swap, map_map.
  simpl. now rewrite map_id.
Qed.

Lemma top5_ties_in_first_seen_order_witness :
  Spec.normalized_items ["bee"; "ant"; "bee"; "ant"; "cat"] <> []
  /\ exists rest,
       filter (fun x => occurrences
                          (Spec.normalized_items ["bee"; "ant"; "bee"; "ant"; "cat"]) x
                        =? 2)
              (first_seen (Spec.normalized_items ["bee"; "ant"; "bee"; "ant"; "cat"]))
       = keys (with_count 2 (top5_from_list ["bee"; "ant"; "bee"; "ant"; "cat"])) ++ rest.
Proof.
  assert (N : Spec.normalized_items ["bee"; "ant"; "bee"; "ant"; "cat"] <> [])
    by (vm_compute; discriminate).
  split; [exact N|].
  exact (top5_ties_in_first_seen_order ["bee"; "ant"; "bee"; "ant"; "cat"] 2 N).
Defined.

Example top5_tie_sample :
  top5_from_list ["bee"; "ant"; "bee"; "ant"; "cat"] = [("bee", 2); ("ant", 2); ("cat", 1)].
Proof. vm_compute. reflexivity. Qed.

(* ================================================================== *)
(** * Words: [split], [join] and [clean_top5_item] *)
(* ================================================================== *)

Module WordFacts.

Lemma split_from_word : forall (w acc rest : str),
  Forall (fun c => is_space c = false) w ->
  split_from acc (w ++ rest) = split_from (rev w ++ acc) rest.
Proof.
  induction w as [|c w IH]; intros acc rest H; [reflexivity|].
  inversion H as [|? ? Hc Hw]; subst. simpl app. cbn [split_from]. rewrite Hc.
  rewrite IH by exact Hw. simpl rev. now rewrite <- app_assoc.
Qed.

Lemma split_from_words : forall (s acc : str),
  Forall (fun c => is_space c = false) acc -> Forall word (split_from acc s).
Proof.
  induction s as [|c s IH]; intros acc H; cbn [split_from].
  - destruct acc as [|a acc]; [constructor|]. constructor; [|constructor].
    split; [|now apply Forall_rev].
    intros E. apply (f_equal (@length ascii)) in E. rewrite length_rev in E. discriminate.
  - destruct (is_space c) eqn:E.
    + destruct acc as [|a acc]; [apply IH; constructor|].
      constructor; [|apply IH; constructor].
      split; [|now apply Forall_rev].
      intros E'. apply (f_equal (@length ascii)) in E'. rewrite length_rev in E'.
      discriminate.
    + apply IH. now constructor.
Qed.

(** [s.split()] returns words. *)
Lemma split_words s : Forall word (split s).
Proof. apply split_from_words. constructor. Qed.

(** Round trip: splitting the words joined by single blanks gives the words
    back. *)
Lemma split_join (ws : list str) : Forall word ws -> split (join " " ws) = ws.
Proof.
  unfold split. induction 1 as [|w ws [Hn Hw] Hws IH]; [reflexivity|].
  destruct ws as [|w2 ws].
  - simpl join. pose proof (split_from_word w [] [] Hw) as S.
    rewrite !app_nil_r in S. rewrite S. cbn [split_from].
    destruct (rev w) as [|a r] eqn:E.
    + apply (f_equal (@rev ascii)) in E. rewrite rev_involutive in E. now subst w.
    + rewrite <- E, rev_involutive. reflexivity.
  - change (join " " (w :: w2 :: ws)) with (w ++ " " ++ join " " (w2 :: ws)).
    rewrite split_from_word by exact Hw. rewrite app_nil_r.
    change (" " ++ join " " (w2 :: ws)) with (" "%char :: join " " (w2 :: ws)).
    cbn [split_from]. change (is_space " ") with true. cbv iota.
    destruct (rev w) as [|a r] eqn:E.
    + apply (f_equal (@rev ascii)) in E. rewrite rev_involutive in E. now subst w.
    + rewrite <- E, rev_involutive. f_equal. exact IH.
Qed.

Lemma join_last (ws : list str) :
  Forall word ws -> ws <> [] ->
  exists a c, join " " ws = a ++ [c] /\ is_space c = false.
Proof.
  induction 1 as [|w ws [Hn Hw] Hws IH]; intros N; [congruence|].
  destruct ws as [|w2 ws].
  - destruct (exists_last Hn) as (a & c & E). exists a, c. split; [exact E|].
    rewrite E in Hw. apply Forall_app in Hw. destruct Hw as [_ Hc]. now inversion Hc.
  - destruct IH as (a & c & E & Hc); [discriminate|].
    exists (w ++ " " ++ a), c. split; [|exact Hc].
    change (join " " (w :: w2 :: ws)) with (w ++ " " ++ join " " (w2 :: ws)).
    now rewrite E, !app_assoc.
Qed.

Lemma rstrip_snoc (a : str) (c : ascii) : is_space c = false -> rstrip (a ++ [c]) = a ++ [c].
Proof.
  intros H. unfold rstrip. rewrite rev_app_distr. simpl. rewrite H.
  change (c :: rev a) with (rev [c] ++ rev a). now rewrite <- rev_app_distr, rev_involutive.
Qed.

(** Words joined by single blanks have no whitespace to strip. *)
Lemma strip_join (ws : list str) : Forall word ws -> strip (join " " ws) = join " " ws.
Proof.
  intros H. destruct ws as [|w ws]; [reflexivity|].
  destruct (join_last _ H) as (a & c & E & Hc); [discriminate|].
  unfold strip.
  assert (L : lstrip (join " " (w :: ws)) = join " " (w :: ws)).
  { inversion H as [|? ? [Hn Hw] _]; subst. destruct w as [|d w]; [congruence|].
    inversion Hw as [|? ? Hd _]; subst.
    destruct ws; simpl; now rewrite Hd. }
  rewrite L, E. now apply rstrip_snoc.
Qed.

Lemma Forall_filter {A : Type} (P : A -> Prop) (p : A -> bool) (l : list A) :
  Forall P l -> Forall P (filter p l).
Proof.
  induction 1 as [|x l Hx Hl IH]; simpl; [constructor|]. destruct (p x); auto.
Qed.

Lemma filter_filter {A : Type} (p : A -> bool) (l : list A) :
  filter p (filter p l) = filter p l.
Proof.
  induction l as [|x l IH]; simpl; [reflexivity|].
  destruct (p x) eqn:E; simpl; [rewrite E; now f_equal | exact IH].
Qed.

Lemma kept_words_words s : Forall word (kept_words s).
Proof. apply Forall_filter, split_words. Qed.

Lemma clean_top5_item_join s : clean_top5_item s = join " " (kept_words s).
Proof. unfold clean_top5_item. cbv zeta. apply strip_join, kept_words_words. Qed.

Lemma split_clean_top5_item s : split (clean_top5_item s) = kept_words s.
Proof. rewrite clean_top5_item_join. apply split_join, kept_words_words. Qed.

Lemma kept_words_kept s : Forall kept_word (kept_words s).
Proof.
  unfold kept_words. apply Forall_forall. intros w H. apply filter_In in H.
  destruct H as [Hin Hp]. apply andb_true_iff in Hp. destruct Hp as [Hj Hl].
  pose proof (split_words s) as W. rewrite Forall_forall in W. destruct (W w Hin) as [_ Hs].
  repeat split; [now apply Nat.ltb_lt | | exact Hs].
  intros J. apply negb_true_iff in Hj.
  assert (X : existsb (str_eqb w) junk_words = true).
  { apply existsb_exists. exists w. split; [exact J | apply str_eqb_refl]. }
  congruence.
Qed.

End WordFacts.
Import WordFacts.

(** What [clean_top5_item] returns is made of words of at least three
    characters that are no junk words, joined by single blanks; cleaning it
    again changes nothing. *)
Theorem clean_top5_item_keeps_long_words (s : str) :
  Forall kept_word (split (clean_top5_item s))
  /\ clean_top5_item s = join " " (split (clean_top5_item s))
  /\ clean_top5_item (clean_top5_item s) = clean_top5_item s.
Proof.
  rewrite split_clean_top5_item. split; [apply kept_words_kept|].
  split; [apply clean_top5_item_join|].
  rewrite (clean_top5_item_join (clean_top5_item s)).
  unfold kept_words at 1. rewrite split_clean_top5_item.
  unfold kept_words. rewrite filter_filter. symmetry. apply clean_top5_item_join.
Qed.

(* ================================================================== *)
(** * What the route shows of a ranking *)
(* ================================================================== *)

Lemma filter_all {A : Type} (p : A -> bool) (l : list A) :
  (forall x, In x l -> p x = true) -> filter p l = l.
Proof.
  induction l as [|x l IH]; intros H; simpl; [reflexivity|].
  rewrite (H x) by (now left). f_equal. apply IH. intros y Hy. apply H. now right.
Qed.

Lemma occurrences_In l x : In x l -> 1 <= occurrences l x.
Proof. intros H. unfold occurrences. now apply count_occ_In. Qed.

(** A ranking of labels that are neither empty nor the text of the sentinel
    passes the filter of the route unchanged. *)
Lemma plot_data_of_ranking (l : list str) (n : nat) :
  Forall (fun x => x <> [] /\ x <> "No data found") l ->
  top5_plot_data (most_common n (Counter l)) = most_common n (Counter l).
Proof.
  intros F. unfold top5_plot_data. apply filter_all. intros [x k] H.
  apply In_most_common, In_Counter in H. simpl in H. destruct H as [Hx Hk].
  rewrite Forall_forall in F. destruct (F x Hx) as [N S]. simpl.
  apply nonempty_true in N. rewrite N. apply str_eqb_neq in S. rewrite S.
  pose proof (occurrences_In _ _ Hx). destruct k; [lia | reflexivity].
Qed.

Lemma kept_words_not_sentinel (label : str) :
  Forall kept_word (split label) -> label <> "No data found".
Proof.
  intros F E. subst label. vm_compute in F. inversion F as [|? ? [H _] _]; subst.
  simpl in H. lia.
Qed.

Lemma normalized_items_labels (items : list str) :
  Forall (fun x => x <> [] /\ Forall kept_word (split x) /\ x = join " " (split x))
         (Spec.normalized_items items).
Proof.
  unfold Spec.normalized_items. apply Forall_forall. intros x H.
  apply filter_In in H. destruct H as [H N]. apply in_map_iff in H.
  destruct H as (y & <- & _). split; [now apply nonempty_true|].
  split; [rewrite split_clean_top5_item; apply kept_words_kept|].
  rewrite split_clean_top5_item. apply clean_top5_item_join.
Qed.

Lemma plot_data_of_top5_from_list (items : list str) :
  top5_plot_data (top5_from_list items)
  = match Spec.normalized_items items with
    | [] => []
    | _ => top5_from_list items
    end.
Proof.
  rewrite top5_from_list_unfold.
  destruct (Spec.normalized_items items) as [|x l] eqn:E; [reflexivity|].
  apply plot_data_of_ranking. rewrite <- E.
  eapply Forall_impl; [|apply normalized_items_labels].
  intros y (N & K & _). split; [exact N | now apply kept_words_not_sentinel].
Qed.

(** The labels of a ranking of [top5_from_list] are not empty and are made
    of words of at least three characters that are no junk words, joined by
    single blanks; every count is at least one. *)
Theorem top5_labels_hold_kept_words (items : list str) (label : str) (n : nat) :
  Spec.normalized_items items <> [] ->
  In (label, n) (top5_from_list items) ->
  label <> "" /\ Forall kept_word (split label) /\ label = join " " (split label)
  /\ 1 <= n.
Proof.
  intros N H. rewrite top5_from_list_unfold in H.
  destruct (Spec.normalized_items items) as [|x l] eqn:E; [congruence|].
  apply In_most_common, In_Counter in H. cbn [fst snd] in H. destruct H as [Hl Hn].
  pose proof (normalized_items_labels items) as F. rewrite E, Forall_forall in F.
  destruct (F label Hl) as (A & B & C). repeat split; auto.
  subst n. now apply occurrences_In.
Qed.

Lemma top5_labels_hold_kept_words_witness :
  Spec.normalized_items ["Click here: Red Shoes"; "ok"] <> []
  /\ In ("red shoes", 1) (top5_from_list ["Click here: Red Shoes"; "ok"])
  /\ ("red shoes" <> "" /\ Forall kept_word (split "red shoes")
      /\ "red shoes" = join " " (split "red shoes") /\ 1 <= 1).
Proof.
  assert (N : Spec.normalized_items ["Click here: Red Shoes"; "ok"] <> [])
    by (vm_compute; discriminate).
  assert (H : In ("red shoes", 1) (top5_from_list ["Click here: Red Shoes"; "ok"]))
    by (vm_compute; tauto).
  split; [exact N|]. split; [exact H|].
  exact (top5_labels_hold_kept_words _ _ _ N H).
Defined.

Section Display.

Variable strptime : str -> str -> option datetime.

Lemma collected_not_sentinel (items : list str) :
  Forall collected items -> Forall (fun x => x <> [] /\ x <> "No data found") items.
Proof.
  intros F. eapply Forall_impl; [|exact F]. intros x [T N]. split; [exact N|].
  intros E. subst x. vm_compute in T. discriminate T.
Qed.

Lemma run_analyzer_top5 (a : analyzer) (doc : document) :
  exists l : list str,
    Forall (fun x => x <> [] /\ x <> "No data found") l
    /\ top5_of (run_analyzer strptime a doc)
       = match l with [] => no_data | _ => most_common 5 (Counter l) end.
Proof.
  assert (T : forall items,
             exists l : list str,
               Forall (fun x => x <> [] /\ x <> "No data found") l
               /\ top5_from_list items
                  = match l with [] => no_data | _ => most_common 5 (Counter l) end).
  { intros items. exists (Spec.normalized_items items).
    split; [|apply top5_from_list_unfold].
    eapply Forall_impl; [|apply normalized_items_labels].
    intros y (N & K & _). split; [exact N | now apply kept_words_not_sentinel]. }
  destruct a; simpl run_analyzer.
  - rewrite search_top5_of. apply T.
  - rewrite youtube_top5_of. apply T.
  - rewrite discover_top5_of. exists (fst (discover_loop strptime doc)).
    split; [|reflexivity]. apply collected_not_sentinel, discover_loop_collected.
  - rewrite generic_top5_of. apply T.
Qed.

Lemma run_analyzer_plot_data (a : analyzer) (doc : document) :
  (top5_of (run_analyzer strptime a doc) = [("No data found", 0)]
   /\ top5_plot_data (top5_of (run_analyzer strptime a doc)) = [])
  \/ (top5_of (run_analyzer strptime a doc) <> [("No data found", 0)]
      /\ top5_plot_data (top5_of (run_analyzer strptime a doc))
         = top5_of (run_analyzer strptime a doc)).
Proof.
  destruct (run_analyzer_top5 a doc) as (l & F & E). rewrite E.
  destruct l as [|x l]; [left; split; reflexivity|]. right. split.
  - apply most_common_not_no_data. discriminate.
  - now apply plot_data_of_ranking.
Qed.

(** Whatever analyzer runs, the list the route shows is the ranking itself,
    or the empty list when the ranking is the sentinel: the sentinel is
    never shown and no other entry is ever dropped. *)
Theorem display_hides_only_the_sentinel (a : analyzer) (doc : document) :
  (top5_of (run_analyzer strptime a doc) = [("No data found", 0)]
   /\ top5_plot_data (top5_of (run_analyzer strptime a doc)) = [])
  \/ (top5_of (run_analyzer strptime a doc) <> [("No data found", 0)]
      /\ top5_plot_data (top5_of (run_analyzer strptime a doc))
         = top5_of (run_analyzer strptime a doc)).
Proof. apply run_analyzer_plot_data. Qed.

Lemma run_analyzer_length (a : analyzer) (doc : document) :
  length (top5_of (run_analyzer strptime a doc)) <= 5.
Proof.
  destruct (run_analyzer_top5 a doc) as (l & _ & E). rewrite E.
  destruct l; [simpl; lia | apply most_common_length].
Qed.

(** When the route computes its data without an exception, the list it
    shows has at most five entries in non-increasing order of count, none
    with an empty label or a zero count, and the percent of the risk bundle
    lies between 0 and 100. *)
Theorem upload_analysis_shape
    (now : datetime) (filename : str) (doc : document)
    (categories : dict) (display_top5 : counter) (risk : Risk.assessment) :
  upload_analysis strptime now filename doc = Risk.Ok (categories, display_top5, risk) ->
  length display_top5 <= 5
  /\ descending display_top5
  /\ Forall (fun e => fst e <> "" /\ 1 <= snd e) display_top5
  /\ (0 <= Risk.percent_of risk <= 100)%Z.
Proof.
  unfold upload_analysis. cbv zeta.
  set (a := choose_analyzer (lower filename)).
  pose proof (run_analyzer_plot_data a doc) as D.
  pose proof (run_analyzer_length a doc) as L.
  pose proof (run_analyzer_descending strptime a doc) as S.
  destruct (run_analyzer strptime a doc) as [[c t] ts]. unfold top5_of in *. simpl in D, L, S.
  cbv beta iota. unfold Risk.calculate_risk.
  destruct (Risk.total_risk now c ts) as [total|e]; [|discriminate].
  intros E. injection E as <- <- <-.
  assert (P : Risk.percent_of (Risk.assess total) = Risk.risk_percent total).
  { unfold Risk.assess.
    destruct (Rle_dec total 3); [|destruct (Rle_dec total 10)]; reflexivity. }
  rewrite P. repeat split; try apply RiskFacts.risk_percent_range.
  - destruct D as [[-> ->]|[_ ->]]; [simpl; lia | exact L].
  - destruct D as [[-> ->]|[_ ->]]; [constructor | exact S].
  - unfold top5_plot_data. apply Forall_forall. intros e H. apply filter_In in H.
    destruct H as [_ H]. apply andb_true_iff in H. destruct H as [H _].
    apply andb_true_iff in H. destruct H as [H1 H2]. destruct e as [x k].
    simpl in *. split; [now apply nonempty_true|]. destruct k; [discriminate H2 | lia].
Qed.

End Display.

Lemma upload_analysis_shape_witness :
  upload_analysis no_strptime 0%Z "MyActivity.html" [discover_block]
  = Risk.Ok ([("Discover", 1)], [("go to it", 1)],
             Risk.assess (Risk.base_risk [("Discover", 1%nat)] + 0)%R)
  /\ (length [("go to it", 1)] <= 5
      /\ descending [("go to it", 1)]
      /\ Forall (fun e : str * nat => fst e <> "" /\ 1 <= snd e) [("go to it", 1)]
      /\ (0 <= Risk.percent_of (Risk.assess (Risk.base_risk [("Discover", 1%nat)] + 0)%R)
          <= 100)%Z).
Proof.
  assert (E : upload_analysis no_strptime 0%Z "MyActivity.html" [discover_block]
              = Risk.Ok ([("Discover", 1)], [("go to it", 1)],
                         Risk.assess (Risk.base_risk [("Discover", 1%nat)] + 0)%R))
    by reflexivity.
  split; [exact E|].
  exact (upload_analysis_shape no_strptime _ _ _ _ _ _ E).
Defined.

(* ================================================================== *)
(** * Counts and timestamps over a whole document *)
(* ================================================================== *)

Section DocumentFacts.

Variable strptime : str -> str -> option datetime.

Lemma dict_incr_other k k0 v0 d :
  str_eqb k k0 = false -> dict_incr k ((k0, v0) :: d) = (k0, v0) :: dict_incr k d.
Proof.
  intros E. unfold dict_incr. simpl. rewrite E. now destruct (dict_get d k).
Qed.

Lemma sum_cons x l : sum (x :: l) = x + sum l.
Proof. rewrite !sum_fold_right. reflexivity. Qed.

(** [d[k] += 1] on a key of [d] raises the sum of the counts by one. *)
Lemma sum_values_incr k : forall d,
  In k (keys d) -> sum (values (dict_incr k d)) = S (sum (values d)).
Proof.
  induction d as [|[k0 v0] d IH]; intros H; [destruct H|].
  destruct (str_eqb k k0) eqn:E.
  - unfold dict_incr. simpl. rewrite E. simpl. rewrite ?E. simpl.
    rewrite !sum_cons. lia.
  - rewrite (dict_incr_other _ _ _ _ E). simpl values. rewrite !sum_cons.
    rewrite IH; [lia|]. destruct H as [H|H]; [|exact H].
    simpl in H. subst k0. now rewrite str_eqb_refl in E.
Qed.

Lemma generic_loop_sum doc :
  sum (values (categories_of (generic_loop strptime doc))) = length doc.
Proof.
  induction doc as [|div doc IH] using rev_ind; [reflexivity|].
  rewrite generic_loop_snoc, length_app. simpl length.
  destruct (generic_div_categories strptime (generic_loop strptime doc) div)
    as (k & Hk & E).
  rewrite E, sum_values_incr, IH; [lia|]. now rewrite generic_loop_keys.
Qed.

Lemma find_existsb {A : Type} (p : A -> bool) (l : list A) :
  existsb p l = match find p l with Some _ => true | None => false end.
Proof.
  induction l as [|x l IH]; simpl; [reflexivity|]. now destruct (p x).
Qed.

Lemma search_div_has_phrase st div :
  categories_of (search_div strptime st div)
  = dict_incr (if has_search_phrase div then "Search" else "Other") (categories_of st)
  /\ (has_search_phrase div = false ->
      terms_of (search_div strptime st div) = terms_of st)
  /\ length (terms_of (search_div strptime st div))
     <= length (terms_of st) + (if has_search_phrase div then 1 else 0).
Proof.
  rewrite search_div_find. unfold has_search_phrase. rewrite find_existsb.
  destruct (find _ search_phrases) as [phrase|]; unfold categories_of, terms_of; simpl.
  - split; [reflexivity|]. split; [discriminate|].
    destruct (nonempty _); [rewrite length_app; simpl; lia | lia].
  - split; [reflexivity|]. split; [reflexivity | lia].
Qed.

Lemma search_loop_sum doc :
  sum (values (categories_of (search_loop strptime doc))) = length doc.
Proof.
  induction doc as [|div doc IH] using rev_ind; [reflexivity|].
  rewrite search_loop_snoc, length_app. simpl length.
  destruct (search_div_has_phrase (search_loop strptime doc) div) as (E & _ & _).
  rewrite E, sum_values_incr, IH; [lia|]. rewrite search_loop_keys.
  destruct (has_search_phrase div); simpl; tauto.
Qed.

Lemma counts_add_up_to_blocks_aux (doc : document) :
  sum (values (categories_of (analyze_generic_file strptime doc))) = length doc
  /\ sum (values (categories_of (analyze_search_file strptime doc))) = length doc.
Proof.
  rewrite generic_categories_of, search_categories_of.
  split; [apply generic_loop_sum | apply search_loop_sum].
Qed.

(** The generic and the search analyzers count every block once: their
    counts add up to the number of [div] elements of the document. *)
Theorem counts_add_up_to_blocks (doc : document) :
  sum (values (categories_of (analyze_generic_file strptime doc))) = length doc
  /\ sum (values (categories_of (analyze_search_file strptime doc))) = length doc.
Proof.
  rewrite generic_categories_of, search_categories_of.
  split; [apply generic_loop_sum | apply search_loop_sum].
Qed.

(** The search analyzer counts under Search the blocks whose text holds one
    of its phrases and under Other the rest, and it keeps at most one term
    for each block counted under Search. *)
Theorem search_counts_blocks_with_phrase (doc : document) :
  count_of (categories_of (analyze_search_file strptime doc)) "Search"
  = length (filter has_search_phrase doc)
  /\ count_of (categories_of (analyze_search_file strptime doc)) "Other"
     = length (filter (fun div => negb (has_search_phrase div)) doc)
  /\ length (terms_of (search_loop strptime doc))
     <= count_of (categories_of (analyze_search_file strptime doc)) "Search".
Proof.
  rewrite search_categories_of.
  induction doc as [|div doc IH] using rev_ind; [repeat split; simpl; lia|].
  destruct IH as (I1 & I2 & I3).
  rewrite search_loop_snoc, !filter_app, !length_app.
  destruct (search_div_has_phrase (search_loop strptime doc) div) as (E & T0 & T).
  rewrite E.
  assert (A : forall k, In k (keys search_categories) ->
                        Spec.adds_one_to k (categories_of (search_loop strptime doc))
                          (dict_incr k (categories_of (search_loop strptime doc))))
    by (intros k Hk; apply incr_adds_one; now rewrite search_loop_keys).
  simpl filter. destruct (has_search_phrase div); simpl negb; cbv iota; simpl length.
  - rewrite !(A "Search") by (simpl; tauto). simpl. lia.
  - rewrite !(A "Other") by (simpl; tauto). rewrite (T0 eq_refl). simpl. lia.
Qed.

Lemma filtered_categories_nil d : filtered_categories d = [] <-> sum (values d) = 0.
Proof.
  unfold filtered_categories. induction d as [|[k v] d IH]; [simpl; tauto|].
  simpl filter. simpl values. rewrite sum_cons. simpl snd. destruct v as [|v]; simpl.
  - exact IH.
  - split; [discriminate | lia].
Qed.

(** With the generic or the search analyzer, no category is left for the
    pie chart exactly when the document has no [div] element. *)
Theorem pie_chart_needs_a_block (doc : document) :
  (filtered_categories (categories_of (analyze_generic_file strptime doc)) = []
   <-> doc = [])
  /\ (filtered_categories (categories_of (analyze_search_file strptime doc)) = []
      <-> doc = []).
Proof.
  destruct (counts_add_up_to_blocks_aux doc) as [G S].
  rewrite !filtered_categories_nil, G, S. split; apply length_zero_iff_nil.
Qed.

End DocumentFacts.

Section TimestampFacts.

Variable strptime : str -> str -> option datetime.

Lemma generic_div_times st div :
  times_of (generic_div strptime st div) = times_of st ++ timestamp_of strptime div.
Proof. destruct st as [[c i] t]. reflexivity. Qed.

Lemma search_div_times st div :
  times_of (search_div strptime st div) = times_of st ++ timestamp_of strptime div.
Proof.
  rewrite search_div_find. now destruct (find _ search_phrases).
Qed.

Lemma youtube_div_times st div :
  times_of (youtube_div strptime st div) = times_of st ++ timestamp_of strptime div.
Proof. destruct st as [[c i] t]. reflexivity. Qed.

Lemma discover_div_times st div :
  snd (discover_div strptime st div)
  = snd st ++ (if discover_qualifies div then timestamp_of strptime div else []).
Proof.
  destruct st as [items times]. unfold discover_div, discover_qualifies. cbv zeta.
  destruct (nonempty (get_text line_feed (div_strings div))); simpl negb; cbv iota;
    [|now rewrite app_nil_r].
  rewrite andb_true_l.
  destruct (filter nonempty (map strip (splitlines (get_text line_feed (div_strings div)))))
    as [|line0 lines']; [now rewrite app_nil_r|].
  destruct (contains "discover" (lower line0)
            || contains "products:" (lower (join line_feed (line0 :: lines')))
               && contains "discover" (lower (join line_feed (line0 :: lines'))));
    simpl negb; cbv iota; [reflexivity | now rewrite app_nil_r].
Qed.

Lemma generic_loop_times doc :
  times_of (generic_loop strptime doc) = flat_map (timestamp_of strptime) doc.
Proof.
  induction doc as [|div doc IH] using rev_ind; [reflexivity|].
  rewrite generic_loop_snoc, generic_div_times, IH, flat_map_app. simpl.
  now rewrite app_nil_r.
Qed.

Lemma search_loop_times doc :
  times_of (search_loop strptime doc) = flat_map (timestamp_of strptime) doc.
Proof.
  induction doc as [|div doc IH] using rev_ind; [reflexivity|].
  rewrite search_loop_snoc, search_div_times, IH, flat_map_app. simpl.
  now rewrite app_nil_r.
Qed.

Lemma youtube_loop_times doc :
  times_of (youtube_loop strptime doc) = flat_map (timestamp_of strptime) doc.
Proof.
  induction doc as [|div doc IH] using rev_ind; [reflexivity|].
  rewrite youtube_loop_snoc, youtube_div_times, IH, flat_map_app. simpl.
  now rewrite app_nil_r.
Qed.

Lemma discover_loop_times doc :
  snd (discover_loop strptime doc)
  = flat_map (timestamp_of strptime) (filter discover_qualifies doc).
Proof.
  induction doc as [|div doc IH] using rev_ind; [reflexivity|].
  unfold discover_loop in *. rewrite fold_left_app. simpl fold_left.
  rewrite discover_div_times, IH, filter_app, flat_map_app. simpl filter.
  destruct (discover_qualifies div); simpl; now rewrite ?app_nil_r.
Qed.

(** The generic, the search and the YouTube analyzers return the parsed
    timestamps of all blocks in document order, whatever the category of a
    block; the Discover analyzer returns those of the blocks that pass its
    tests. *)
Theorem timestamps_in_document_order (a : analyzer) (doc : document) :
  times_of (run_analyzer strptime a doc)
  = flat_map (timestamp_of strptime)
      (match a with
       | DiscoverFile => filter discover_qualifies doc
       | _ => doc
       end).
Proof.
  destruct a; simpl run_analyzer.
  - rewrite <- search_loop_times. unfold analyze_search_file.
    now destruct (search_loop strptime doc) as [[c i] t].
  - rewrite <- youtube_loop_times. unfold analyze_youtube_file.
    now destruct (youtube_loop strptime doc) as [[c i] t].
  - rewrite <- discover_loop_times. unfold analyze_discover_file.
    now destruct (discover_loop strptime doc) as [i t].
  - rewrite <- generic_loop_times. unfold analyze_generic_file.
    now destruct (generic_loop strptime doc) as [[c i] t].
Qed.

Lemma youtube_scan_length text queries :
  length (youtube_scan text queries) <= length queries + 3.
Proof.
  unfold youtube_scan, youtube_phrases. simpl fold_left.
  repeat match goal with
         | |- context [if contains ?p text then _ else _] =>
             destruct (contains p text); cbv zeta
         | |- context [if nonempty ?q then _ else _] => destruct (nonempty q)
         end;
    rewrite ?length_app; simpl; lia.
Qed.

Lemma youtube_watch_length div titles :
  length (youtube_watch div titles) <= length titles + 1.
Proof.
  unfold youtube_watch. destruct (div_a div) as [a_tag|]; [|lia]. cbv zeta.
  destruct (_ || _); [|lia]. destruct (_ && _); [|lia].
  rewrite length_app. simpl. lia.
Qed.

Lemma youtube_loop_lengths doc :
  length (fst (fst (youtube_loop strptime doc))) <= length doc
  /\ length (snd (fst (youtube_loop strptime doc))) <= 3 * length doc.
Proof.
  induction doc as [|div doc [I1 I2]] using rev_ind; [simpl; lia|].
  rewrite youtube_loop_snoc, length_app. simpl length.
  destruct (youtube_loop strptime doc) as [[titles queries] times].
  unfold youtube_div. cbn [fst snd] in *.
  pose proof (youtube_scan_length (get_text " " (div_strings div)) queries).
  pose proof (youtube_watch_length div titles). lia.
Qed.

(** The YouTube analyzer counts at most one video for a block and at most
    three searches, one for each phrase; Maps, Shopping, Discover and Other
    stay at zero whatever the document holds. *)
Theorem youtube_counts_bounded (doc : document) :
  count_of (categories_of (analyze_youtube_file strptime doc)) "YouTube" <= length doc
  /\ count_of (categories_of (analyze_youtube_file strptime doc)) "Search"
     <= 3 * length doc
  /\ Forall (fun k => count_of (categories_of (analyze_youtube_file strptime doc)) k = 0)
            ["Maps"; "Shopping"; "Discover"; "Other"].
Proof.
  destruct (youtube_counts strptime doc) as [-> ->].
  destruct (youtube_loop_lengths doc) as [L1 L2].
  split; [exact L1|]. split; [exact L2|].
  unfold analyze_youtube_file.
  destruct (youtube_loop strptime doc) as [[titles queries] times].
  cbv zeta. unfold categories_of. cbn [fst snd].
  repeat constructor; rewrite !count_of_set; reflexivity.
Qed.

End TimestampFacts.

(** The Discover loop over the lines of a block ends at the first line that
    starts with "why is this here", in any letter case: no line after it
    adds an item. *)
Theorem discover_stops_at_why_line
    (before after : list str) (stop : str) (items : list str) :
  startswith (lower stop) "why is this here" = true ->
  discover_lines (before ++ stop :: after) items
  = discover_lines (before ++ [stop]) items.
Proof.
  intros S.
  assert (G : forall rest,
             discover_lines (before ++ stop :: rest) items
             = discover_lines (before ++ [stop]) items).
  { intros rest. revert items. induction before as [|ln before IH]; intros items.
    - cbn [app discover_lines]. now rewrite S.
    - cbn [app discover_lines].
      destruct (startswith (lower ln) "why is this here"); [reflexivity|].
      cbv zeta. destruct (search card_re _); [apply IH|].
      destruct (nonempty _); apply IH. }
  apply G.
Qed.

Lemma discover_stops_at_why_line_witness :
  startswith (lower "Why is this here?") "why is this here" = true
  /\ discover_lines (["Red shoes sale"] ++ "Why is this here?" :: ["Blue hats"]) []
     = discover_lines (["Red shoes sale"] ++ ["Why is this here?"]) [].
Proof.
  assert (S : startswith (lower "Why is this here?") "why is this here" = true)
    by reflexivity.
  split; [exact S|].
  exact (discover_stops_at_why_line ["Red shoes sale"] ["Blue hats"]
           "Why is this here?" [] S).
Defined.

(* ================================================================== *)
(** * The name of the chart file *)
(* ================================================================== *)

Lemma squeeze_from_drop f x : forall s,
  squeeze_from f x true s = squeeze_from f x false (drop_class f s).
Proof.
  induction s as [|c s IH]; [reflexivity|]. cbn [drop_class squeeze_from].
  destruct (f c) eqn:E; [exact IH|]. cbn [squeeze_from]. now rewrite E.
Qed.

(** [re.sub] of [f+], for a class [f], by one character writes that
    character once for each run of the class. *)
Lemma sub_plus_class_squeeze f x : forall n s prev,
  length s <= n -> sub_from (plus (Chr f)) [x] 0 prev s = squeeze_from f x false s.
Proof.
  induction n as [|n IH]; intros s prev L.
  - destruct s; [reflexivity | simpl in L; lia].
  - destruct s as [|c s]; [reflexivity|].
    cbn [sub_from squeeze_from]. rewrite match_length_plus_class.
    destruct (f c); cbn [app].
    + destruct (sub_from_skip (plus (Chr f)) [x] s
                  (length s - length (drop_class f s)) (Some c)) as [prev' E].
      rewrite E, skipn_drop_class, squeeze_from_drop. f_equal. apply IH.
      pose proof (drop_class_length f s). simpl in L. lia.
    + f_equal. apply IH. simpl in L. lia.
Qed.

Lemma safe_filename_squeeze s :
  safe_filename s = squeeze_from (fun c => negb (is_word c)) "_" false s.
Proof.
  unfold safe_filename, sub, nonword_re. now apply sub_plus_class_squeeze with (length s).
Qed.

Lemma squeeze_from_Forall f x (P : ascii -> Prop) :
  P x -> (forall c, f c = false -> P c) ->
  forall s b, Forall P (squeeze_from f x b s).
Proof.
  intros Px Pc. induction s as [|c s IH]; intros b; simpl; [constructor|].
  destruct (f c) eqn:E.
  - destruct b; [apply IH | constructor; [exact Px | apply IH]].
  - constructor; [now apply Pc | apply IH].
Qed.

Lemma squeeze_from_fixed f x : forall s b,
  Forall (fun c => f c = false) s -> squeeze_from f x b s = s.
Proof.
  induction s as [|c s IH]; intros b F; [reflexivity|].
  inversion F as [|? ? E F']; subst. simpl. rewrite E. f_equal. now apply IH.
Qed.

Lemma squeeze_from_length f x : forall s b,
  length (squeeze_from f x b s) <= length s.
Proof.
  induction s as [|c s IH]; intros b; simpl; [lia|].
  destruct (f c); [destruct b|]; simpl; try (pose proof (IH true)); 
    try (pose proof (IH false)); lia.
Qed.

(** The name [upload_file] derives from the name of the uploaded file holds
    only word characters; it is no longer than the name it comes from, and
    deriving a name from it again gives it back.  So the name of the chart
    file, which adds "top5_" and ".png", holds word characters and dots
    only, and no path separator. *)
Theorem safe_filename_holds_word_characters (filename_lower : str) :
  Forall (fun c => is_word c = true) (safe_filename filename_lower)
  /\ length (safe_filename filename_lower) <= length filename_lower
  /\ safe_filename (safe_filename filename_lower) = safe_filename filename_lower
  /\ Forall (fun c => is_word c = true \/ c = "."%char) (top5_chart_url filename_lower).
Proof.
  assert (W : Forall (fun c => is_word c = true) (safe_filename filename_lower)).
  { rewrite safe_filename_squeeze. apply squeeze_from_Forall; [reflexivity|].
    intros c E. now apply negb_false_iff in E. }
  split; [exact W|]. split.
  { rewrite safe_filename_squeeze. apply squeeze_from_length. }
  split.
  { rewrite (safe_filename_squeeze (safe_filename filename_lower)).
    apply squeeze_from_fixed. eapply Forall_impl; [|exact W].
    intros c E. simpl in E. now rewrite E. }
  unfold top5_chart_url. apply Forall_app. split.
  - repeat constructor.
  - apply Forall_app. split.
    + eapply Forall_impl; [|exact W]. intros c E. now left.
    + repeat constructor; now right.
Qed.

(* ================================================================== *)
(** * The score, the percent and the tier *)
(* ================================================================== *)

Module RiskBounds.

Import Risk RiskFacts.
Local Open Scope R_scope.

Lemma percent_of_assess (total : R) : percent_of (assess total) = risk_percent total.
Proof.
  unfold assess. destruct (Rle_dec total 3); [|destruct (Rle_dec total 10)]; reflexivity.
Qed.

Lemma level_of_assess (total : R) :
  level_of (assess total)
  = if Rle_dec total 3 then "Low" else if Rle_dec total 10 then "Medium" else "High".
Proof.
  unfold assess. destruct (Rle_dec total 3); [|destruct (Rle_dec total 10)]; reflexivity.
Qed.



Lemma py_int_clamped (y : R) :
  py_int (py_max 0 (py_min 100 y)) = Int_part (py_max 0 (py_min 100 y)).
Proof.
  unfold py_int. pose proof (clamped_value y).
  destruct (Rle_dec 0 (py_max 0 (py_min 100 y))); [reflexivity | lra].
Qed.


Lemma risk_percent_at_least (total : R) (lo : Z) :
  (lo <= 100)%Z -> IZR lo <= total / 15 * 100 -> (lo <= risk_percent total)%Z.
Proof.
  intros B H. unfold risk_percent. rewrite py_int_clamped.
  set (v := py_max 0 (py_min 100 (total / 15 * 100))).
  assert (V : IZR lo <= v).
  { apply IZR_le in B. unfold v, py_max, py_min.
    destruct (Rlt_dec (total / 15 * 100) 100);
      match goal with
      | |- context [Rlt_dec 0 ?a] => destruct (Rlt_dec 0 a)
      end; lra. }
  destruct (base_Int_part v) as [V1 V2].
  assert (L : IZR (lo - 1) < IZR (Int_part v)) by (rewrite minus_IZR; lra).
  apply lt_IZR in L. lia.
Qed.

Lemma risk_percent_at_most (total : R) (hi : Z) :
  (0 <= hi)%Z -> total / 15 * 100 < IZR (hi + 1) -> (risk_percent total <= hi)%Z.
Proof.
  intros B H. unfold risk_percent. rewrite py_int_clamped.
  set (v := py_max 0 (py_min 100 (total / 15 * 100))).
  assert (V : v < IZR (hi + 1)).
  { apply IZR_le in B. rewrite plus_IZR in *. unfold v, py_max, py_min.
    destruct (Rlt_dec (total / 15 * 100) 100);
      match goal with
      | |- context [Rlt_dec 0 ?a] => destruct (Rlt_dec 0 a)
      end; lra. }
  destruct (base_Int_part v) as [V1 V2].
  assert (L : IZR (Int_part v) < IZR (hi + 1)) by lra.
  apply lt_IZR in L. lia.
Qed.

(** The tier and the percent of an assessment agree: "Low" comes with a
    percent of at most 20, "Medium" with one from 20 to 66, "High" with one
    of at least 66. *)
Theorem tier_agrees_with_percent
    (now : datetime) (categories : dict) (recent_activities : list datetime)
    (a : assessment) :
  calculate_risk now categories recent_activities = Ok a ->
  (level_of a = "Low" -> (percent_of a <= 20)%Z)
  /\ (level_of a = "Medium" -> (20 <= percent_of a <= 66)%Z)
  /\ (level_of a = "High" -> (66 <= percent_of a)%Z).
Proof.
  unfold calculate_risk.
  destruct (total_risk now categories recent_activities) as [total|e]; [|discriminate].
  intros E. injection E as <-. rewrite percent_of_assess, level_of_assess.
  destruct (Rle_dec total 3) as [L|L]; [|destruct (Rle_dec total 10) as [M|M]];
    (split; [|split]); try discriminate; intros _.
  - apply risk_percent_at_most; [lia | simpl; lra].
  - split.
    + apply risk_percent_at_least; [lia | simpl; lra].
    + apply risk_percent_at_most; [lia | simpl; lra].
  - apply risk_percent_at_least; [lia | simpl; lra].
Qed.

Lemma tier_agrees_with_percent_witness :
  calculate_risk 0%Z generic_categories []
  = Ok (assess (base_risk generic_categories + 0))
  /\ ((level_of (assess (base_risk generic_categories + 0)) = "Low" ->
       (percent_of (assess (base_risk generic_categories + 0)) <= 20)%Z)
      /\ (level_of (assess (base_risk generic_categories + 0)) = "Medium" ->
          (20 <= percent_of (assess (base_risk generic_categories + 0)) <= 66)%Z)
      /\ (level_of (assess (base_risk generic_categories + 0)) = "High" ->
          (66 <= percent_of (assess (base_risk generic_categories + 0)))%Z)).
Proof.
  split; [reflexivity|].
  exact (tier_agrees_with_percent 0%Z generic_categories [] _ eq_refl).
Defined.

(** ** The base score *)












(** ** The recent part of the score *)




(** ** Timestamps far in the future *)

Lemma recent_loop_overflow now : forall recent_activities recent_risk,
  Exists (fun act_time => (days_between now act_time <= -7168)%Z) recent_activities ->
  recent_loop now recent_activities recent_risk = Raise OverflowError.
Proof.
  induction recent_activities as [|t l IH]; intros r H; [inversion H|].
  cbn [recent_loop]. inversion H as [? ? Ht|? ? Hl]; subst.
  - rewrite math_exp_overflow; [reflexivity|].
    apply IZR_le in Ht. rewrite opp_IZR. lra.
  - destruct (math_exp _) as [e|[]]; [now apply IH | reflexivity].
Qed.

Lemma calculate_risk_overflow now categories recent_activities t :
  In t recent_activities -> (days_between now t <= -7168)%Z ->
  calculate_risk now categories recent_activities = Raise OverflowError.
Proof.
  intros I D. unfold calculate_risk, total_risk.
  rewrite recent_loop_overflow; [reflexivity|].
  apply Exists_exists. now exists t.
Qed.

Section FarFuture.

Variable strptime : str -> str -> option datetime.

(** One parsed timestamp that lies 7168 days or more after the current
    time, anywhere in the document the analyzer reads, makes the route end
    with [OverflowError] instead of an analysis. *)
Theorem upload_fails_on_far_future_timestamp
    (now : datetime) (filename : str) (doc : document) (t : datetime) :
  In t (times_of (run_analyzer strptime (choose_analyzer (lower filename)) doc)) ->
  (days_between now t <= -7168)%Z ->
  upload_analysis strptime now filename doc = Raise OverflowError.
Proof.
  intros I D. unfold upload_analysis. cbv zeta.
  destruct (run_analyzer strptime (choose_analyzer (lower filename)) doc)
    as [[categories top5_data] activity_times].
  unfold times_of in I. cbn [snd] in I. cbv beta iota.
  now rewrite (calculate_risk_overflow now categories activity_times t I D).
Qed.

End FarFuture.

Lemma upload_fails_on_far_future_timestamp_witness :
  In (7168 * microseconds_per_day)%Z
     (times_of (run_analyzer (constant_strptime (7168 * microseconds_per_day)%Z)
                  (choose_analyzer (lower "history.html"))
                  [text_block "Visited a page";
                   dated_block "Visited a page" "January 1, 2050 at 10:00"]))
  /\ (days_between 0%Z (7168 * microseconds_per_day)%Z <= -7168)%Z
  /\ upload_analysis (constant_strptime (7168 * microseconds_per_day)%Z) 0%Z
       "history.html"
       [text_block "Visited a page";
        dated_block "Visited a page" "January 1, 2050 at 10:00"]
     = Raise OverflowError.
Proof.
  assert (I : In (7168 * microseconds_per_day)%Z
                (times_of (run_analyzer (constant_strptime (7168 * microseconds_per_day)%Z)
                             (choose_analyzer (lower "history.html"))
                             [text_block "Visited a page";
                              dated_block "Visited a page" "January 1, 2050 at 10:00"])))
    by (vm_compute; tauto).
  assert (D : (days_between 0%Z (7168 * microseconds_per_day)%Z <= -7168)%Z)
    by (vm_compute; discriminate).
  split; [exact I|]. split; [exact D|].
  exact (upload_fails_on_far_future_timestamp _ 0%Z "history.html" _ _ I D).
Defined.

End RiskBounds.

(* ================================================================== *)
(** * The titles and queries of the YouTube analyzer *)
(* ================================================================== *)

Section YouTubeFacts.

Variable strptime : str -> str -> option datetime.

Lemma youtube_watch_titles div titles :
  Forall (fun title => collected title /\ startswith title removed_video = false) titles ->
  Forall (fun title => collected title /\ startswith title removed_video = false)
         (youtube_watch div titles).
Proof.
  intros F. unfold youtube_watch. destruct (div_a div) as [a_tag|]; [|exact F].
  cbv zeta. destruct (_ || _); [|exact F].
  set (title := clean_text (get_text "" (a_strings a_tag))).
  destruct (nonempty title && negb (startswith (lower title) removed_video)) eqn:E;
    [|exact F].
  apply andb_true_iff in E. destruct E as [N R].
  apply Forall_app. split; [exact F|]. constructor; [|constructor].
  assert (T : tidy title = true) by apply clean_text_tidy.
  split; [split; [exact T | now apply nonempty_true]|].
  apply negb_true_iff in R. now rewrite (lower_of_tidy title true T) in R.
Qed.

Lemma youtube_scan_queries text queries :
  Forall (fun q : str => q <> "") queries ->
  Forall (fun q : str => q <> "") (youtube_scan text queries).
Proof.
  unfold youtube_scan. generalize youtube_phrases. intros phrases. revert queries.
  induction phrases as [|phrase phrases IH]; intros queries F; [exact F|].
  simpl fold_left. apply IH. destruct (contains phrase text); [|exact F].
  cbv zeta. destruct (nonempty (youtube_query phrase text)) eqn:N; [|exact F].
  apply Forall_app. split; [exact F|]. constructor; [|constructor].
  now apply nonempty_true.
Qed.

Lemma youtube_loop_kept doc :
  Forall (fun title => collected title /\ startswith title removed_video = false)
         (fst (fst (youtube_loop strptime doc)))
  /\ Forall (fun q : str => q <> "") (snd (fst (youtube_loop strptime doc))).
Proof.
  induction doc as [|div doc [I1 I2]] using rev_ind; [split; constructor|].
  rewrite youtube_loop_snoc.
  destruct (youtube_loop strptime doc) as [[titles queries] times].
  unfold youtube_div. cbn [fst snd] in *. split.
  - now apply youtube_watch_titles.
  - now apply youtube_scan_queries.
Qed.

(** The YouTube count is the number of titles the loop of the analyzer
    keeps and the Search count the number of its queries; every kept title
    is a normalized, non-empty text that does not start with the phrase of
    a removed video, and no kept query is empty. *)
Theorem youtube_counts_kept_titles (doc : document) :
  count_of (categories_of (analyze_youtube_file strptime doc)) "YouTube"
  = length (fst (fst (youtube_loop strptime doc)))
  /\ count_of (categories_of (analyze_youtube_file strptime doc)) "Search"
     = length (snd (fst (youtube_loop strptime doc)))
  /\ Forall (fun title => collected title /\ startswith title removed_video = false)
            (fst (fst (youtube_loop strptime doc)))
  /\ Forall (fun q : str => q <> "") (snd (fst (youtube_loop strptime doc))).
Proof.
  destruct (youtube_counts strptime doc) as [C1 C2].
  destruct (youtube_loop_kept doc) as [K1 K2].
  split; [exact C1|]. split; [exact C2|]. split; [exact K1 | exact K2].
Qed.

End YouTubeFacts.
